(** * ml_utils.classification: evaluation helpers for classifiers

    A shallow embedding of [src/ml_utils/classification.py].  The module is
    glue code: every function hands label and score arrays to
    [sklearn.metrics], and draws the outcome with matplotlib and seaborn.
    The embedding keeps that shape:

    - NumPy arrays are lists, float64 entries are primitive floats, integer
      entries are [Z]; the NumPy operations the module uses ([<=], [>=],
      [&], boolean-mask indexing, [arange], [where], [sort], [.T], column
      slicing) are written out with the errors NumPy raises;
    - [sklearn.metrics] is an interface ([Metrics]): its functions are
      outside the repository, so the theorems quantify over every
      implementation of it; so is what seaborn makes of a heat map
      request ([Seaborn]);
    - the plotting calls run in a small monad that threads the pyplot state,
      records each drawing call as an [Event], and lets an exception cut the
      computation short while the calls already made stay recorded. *)

From Stdlib Require Import List ZArith Lia Bool String Arith.
From Stdlib Require Import Floats.PrimFloat Numbers.Cyclic.Int63.Uint63.
From Stdlib Require Import Floats.SpecFloat Floats.FloatOps Floats.FloatAxioms.
From Stdlib Require Import Sorting.Sorted.
From Stdlib Require Import DecimalString.
Import ListNotations.

Set Implicit Arguments.
Set Warnings "-inexact-float".
Local Open Scope string_scope.
Local Open Scope list_scope.
Local Open Scope Z_scope.

(** ** Python exceptions and fallible results *)

Inductive exn : Type :=
| ValueError
| IndexError
| TypeError
| ZeroDivisionError
| AttributeError.

Inductive result (A : Type) : Type :=
| Ok (a : A)
| Raise (e : exn).

Arguments Ok {A} a.
Arguments Raise {A} e.

Definition rbind {A B} (r : result A) (k : A -> result B) : result B :=
  match r with
  | Ok a => k a
  | Raise e => Raise e
  end.

Declare Scope result_scope.
Delimit Scope result_scope with result.
Notation "x <- r ;; k" := (rbind r (fun x => k))
  (at level 61, r at next level, right associativity) : result_scope.
Notation "' pat <- r ;; k" := (rbind r (fun x => match x with pat => k end))
  (at level 61, pat pattern, r at next level, right associativity) : result_scope.

(** ** NumPy on one- and two-dimensional arrays *)

Module np.

(** int64 to float64, as NumPy converts an integer operand of [/] or of
    [+ 0.5]; through the 63-bit primitive integers, so for magnitudes
    below 2^63 (exact below 2^53, rounded to nearest above). *)
Definition float64 (z : Z) : float :=
  if z <? 0 then PrimFloat.opp (PrimFloat.of_uint63 (Uint63.of_Z (- z)))
  else PrimFloat.of_uint63 (Uint63.of_Z z).

(** [a <= c] and [a >= c] of a float array against a scalar: element by
    element, IEEE comparisons (false on NaN).  [x >= c] is [c <= x]. *)
Definition le (a : list float) (c : float) : list bool :=
  map (fun x => PrimFloat.leb x c) a.

Definition ge (a : list float) (c : float) : list bool :=
  map (fun x => PrimFloat.leb c x) a.

(** [a == c] of an integer (label) array against a scalar. *)
Definition eq (a : list Z) (c : Z) : list bool :=
  map (fun x => x =? c) a.

Fixpoint zip_with {A B C} (f : A -> B -> C) (a : list A) (b : list B) : list C :=
  match a, b with
  | x :: a', y :: b' => f x y :: zip_with f a' b'
  | _, _ => []
  end.

(** [a & b] on boolean arrays.  Shapes [(n,)] and [(m,)] combine when
    [n = m] or one of them is 1 (broadcasting); any other pair raises
    ValueError. *)
Definition logical_and (a b : list bool) : result (list bool) :=
  if Nat.eqb (List.length a) (List.length b) then Ok (zip_with andb a b)
  else match a, b with
       | [x], _ => Ok (map (andb x) b)
       | _, [y] => Ok (map (fun x => andb x y) a)
       | _, _ => Raise ValueError
       end.

Fixpoint compress {A} (mask : list bool) (a : list A) : list A :=
  match mask, a with
  | m :: mask', x :: a' =>
      if m then x :: compress mask' a' else compress mask' a'
  | _, _ => []
  end.

(** [a[mask]] with a boolean mask: the mask must be as long as the array
    (IndexError otherwise); the entries under a true bit are kept, in
    place order. *)
Definition getitem_mask {A} (a : list A) (mask : list bool) : result (list A) :=
  if Nat.eqb (List.length mask) (List.length a) then Ok (compress mask a)
  else Raise IndexError.

(** [a[i]] with a non-negative integer index. *)
Definition getitem {A} (a : list A) (i : nat) : result A :=
  match nth_error a i with
  | Some x => Ok x
  | None => Raise IndexError
  end.

(** [np.arange(n)] and [a + c] for a float scalar [c]. *)
Definition arange (n : nat) : list Z := map Z.of_nat (seq 0 n).

Definition add_scalar (a : list Z) (c : float) : list float :=
  map (fun i => PrimFloat.add (float64 i) c) a.

(** [np.where(cond, 1, 0)]. *)
Definition where_ (cond : list bool) (x y : Z) : list Z :=
  map (fun b : bool => if b then x else y) cond.

(** [np.sort] on an integer array: ascending.  Insertion sort stands for
    the library's algorithm; the outcome of sorting integers does not
    depend on the algorithm. *)
Fixpoint insert (x : Z) (l : list Z) : list Z :=
  match l with
  | [] => [x]
  | y :: l' => if x <=? y then x :: l else y :: insert x l'
  end.

Fixpoint sort (l : list Z) : list Z :=
  match l with
  | [] => []
  | x :: l' => insert x (sort l')
  end.

(** An integer matrix is the list of its rows, all of one length; the
    column count is read off the first row (the matrices here are the
    library's confusion matrices, which are square, so no shape [(0, c)]
    with [c > 0] arises). *)
Definition ncols {A} (m : list (list A)) : nat :=
  match m with
  | [] => 0%nat
  | r :: _ => List.length r
  end.

(** [m.T]. *)
Definition T (m : list (list Z)) : list (list Z) :=
  map (fun j => map (fun row => nth j row 0) m) (seq 0 (ncols m)).

(** A two-dimensional float array (the probability table): its rows,
    each of [width] entries, with the column count kept apart so that
    shape [(0, c)] is told from [(0, 0)]. *)
Record table : Type := {
  width : nat;
  rows : list (list float)
}.

(** [m[:, i]]: IndexError when the array has no column [i]. *)
Definition getitem_col (m : table) (i : nat) : result (list float) :=
  if Nat.ltb i (width m)
  then Ok (map (fun row => nth i row PrimFloat.zero) (rows m))
  else Raise IndexError.

(** [np.ceil(a / b).astype(int)] for non-negative integers [a] and
    positive [b], in exact arithmetic. *)
Definition ceil_div (a b : nat) : nat :=
  (a / b + (if Nat.eqb (a mod b) 0 then 0 else 1))%nat.

End np.

(** ** pandas and the Python built-ins *)

Module pd.

(** [Series.unique()]: the distinct values in order of first appearance. *)
Fixpoint unique (l : list Z) : list Z :=
  match l with
  | [] => []
  | x :: l' => x :: filter (fun y => negb (y =? x)) (unique l')
  end.

End pd.

Module py.

(** The built-in [sum] over a boolean array: starts from 0 and adds each
    entry, [True] counting 1. *)
Definition sum (a : list bool) : Z :=
  fold_left (fun acc (b : bool) => acc + Z.b2z b) a 0.

(** True division [a / n] of an integer count by a length.  [n] is 0 only
    for an empty array, where [sum] has answered the Python integer 0 and
    the quotient is a ZeroDivisionError. *)
Definition truediv (a : Z) (n : nat) : result float :=
  if Nat.eqb n 0 then Raise ZeroDivisionError
  else Ok (PrimFloat.div (np.float64 a) (np.float64 (Z.of_nat n))).

(** [enumerate]. *)
Definition enumerate {A} (l : list A) : list (nat * A) :=
  combine (seq 0 (List.length l)) l.

(** [s or default] on an optional string: [None] and the empty string are
    both falsy. *)
Definition or_default (s : option string) (default : string) : string :=
  match s with
  | Some t => if String.eqb t "" then default else t
  | None => default
  end.

Definition newline : string := String (Ascii.ascii_of_nat 10) "".

(** [range(a, b)]. *)
Definition range (a b : nat) : list nat := seq a (b - a).

End py.

(** The string conversions of f-strings: [str(x)] for a label and
    [format(x, spec)] for a float. *)
Class Format : Type := {
  str : Z -> string;
  format : float -> string -> string
}.

(** ** matplotlib and seaborn

    An Axes object is known by its identity.  Every call that draws or
    configures is recorded as an [Event]; the pyplot state keeps what later
    calls depend on: the identities handed out, the Axes of the current
    figure (the current Axes on top), and the number of positions of the
    fixed tick locator installed on each axis. *)

Module plt.

Definition axes : Type := nat.

(** Keyword arguments of a line: [color], [lw], [linestyle], [label]. *)
Record line_kw : Type := {
  color : option string;
  lw : Z;
  linestyle : option string;
  label : string
}.

(** Keyword arguments of [seaborn.heatmap]; [extra] holds the caller's
    [**kwargs], passed through as they came. *)
Record heatmap_kw : Type := {
  square : bool;
  annot : bool;
  fmt : string;
  cbar : bool;
  cmap : string;
  extra : list (string * string)
}.

Inductive Event : Type :=
| Figure (figsize : option (Z * Z))
| Subplots (nrows ncols : nat) (figsize : option (Z * Z)) (created : list axes)
| AddSubplot (ax : axes)
| Colorbar (cax parent : axes)
| DelAxes (ax : axes)
| Heatmap (ax : axes) (data : list (list Z)) (kw : heatmap_kw)
| Plot (ax : axes) (x y : list float) (kw : line_kw)
| AxHLine (ax : axes) (y : float) (kw : line_kw)
| Legend (ax : axes) (loc : option string)
| Annotate (ax : axes) (text : string) (xy : float * float)
| SetTitle (ax : axes) (s : string)
| SetXLabel (ax : axes) (s : string)
| SetYLabel (ax : axes) (s : string)
| SetXTicks (ax : axes) (ticks : list float)
| SetYTicks (ax : axes) (ticks : list float)
| SetXTickLabels (ax : axes) (labels : list string)
| SetYTickLabels (ax : axes) (labels : list string) (rotation : Z)
| SetXLim (ax : axes) (lo hi : float)
| SetYLim (ax : axes) (lo hi : float).

(** [stack]: the Axes of the current figure, the most recently current
    last. *)
Record pyplot : Type := {
  next_axes : nat;
  stack : list axes;
  xlocator : axes -> option nat;
  ylocator : axes -> option nat
}.

(** The current Axes: the top of the stack, when the current figure has
    an Axes. *)
Definition current (s : pyplot) : option axes :=
  match rev (stack s) with
  | [] => None
  | ax :: _ => Some ax
  end.

(** A drawing computation: from a pyplot state to the state after, the
    calls recorded, and a value or the exception raised. *)
Definition Draw (A : Type) : Type := pyplot -> pyplot * list Event * result A.

Definition ret {A} (a : A) : Draw A := fun s => (s, [], Ok a).

Definition bind {A B} (m : Draw A) (k : A -> Draw B) : Draw B :=
  fun s =>
    match m s with
    | (s1, ev1, Ok a) =>
        match k a s1 with
        | (s2, ev2, r) => (s2, ev1 ++ ev2, r)
        end
    | (s1, ev1, Raise e) => (s1, ev1, Raise e)
    end.

Definition lift {A} (r : result A) : Draw A := fun s => (s, [], r).

Definition emit (e : Event) : Draw unit := fun s => (s, [e], Ok tt).

Definition events {A} (out : pyplot * list Event * result A) : list Event :=
  snd (fst out).

Definition outcome {A} (out : pyplot * list Event * result A) : result A :=
  snd out.

(** What [plt.subplots] hands back after squeezing: one Axes for a 1 x 1
    grid, a one-dimensional array when there is one row or one column, a
    two-dimensional array otherwise. *)
Inductive axes_array : Type :=
| One (ax : axes)
| Row (l : list axes)
| Grid (rows : list (list axes)).

Definition squeeze (nrows ncols : nat) (first : axes) : axes_array :=
  if Nat.eqb nrows 1 && Nat.eqb ncols 1 then One first
  else if Nat.eqb nrows 1 || Nat.eqb ncols 1 then Row (seq first (nrows * ncols))
  else Grid (map (fun r => seq (first + r * ncols) ncols) (seq 0 nrows)).

(** [plt.subplots(nrows, ncols, figsize=...)] makes a new figure, which
    becomes the current one, and then its grid.  A grid with no row or
    no column is a ValueError, raised once the figure is there, empty;
    otherwise the figure gets [nrows * ncols] new Axes, numbered row by
    row, the last of them current. *)
Definition subplots (nrows ncols : nat) (figsize : option (Z * Z)) : Draw axes_array :=
  fun s =>
    if Nat.eqb nrows 0 || Nat.eqb ncols 0
    then ({| next_axes := next_axes s;
             stack := [];
             xlocator := xlocator s;
             ylocator := ylocator s |},
          [Figure figsize], Raise ValueError)
    else
      let first := next_axes s in
      let n := (nrows * ncols)%nat in
      ({| next_axes := first + n;
          stack := seq first n;
          xlocator := xlocator s;
          ylocator := ylocator s |},
       [Subplots nrows ncols figsize (seq first n)],
       Ok (squeeze nrows ncols first)).

(** The object bound by [fig, ax = plt.subplots(...)] used as an Axes:
    an array has none of the Axes methods. *)
Definition the_axes (a : axes_array) : result axes :=
  match a with
  | One ax => Ok ax
  | _ => Raise AttributeError
  end.

(** [axes.flatten()]: an ndarray method, absent on a single Axes. *)
Definition flatten (a : axes_array) : result (list axes) :=
  match a with
  | One _ => Raise AttributeError
  | Row l => Ok l
  | Grid rows => Ok (List.concat rows)
  end.

(** [plt.gca()]: the current Axes, made first when there is none. *)
Definition gca : Draw axes :=
  fun s =>
    match current s with
    | Some ax => (s, [], Ok ax)
    | None =>
        let ax := next_axes s in
        ({| next_axes := ax + 1;
            stack := stack s ++ [ax];
            xlocator := xlocator s;
            ylocator := ylocator s |},
         [AddSubplot ax], Ok ax)
    end.

(** [fig.delaxes(ax)] on the current figure: the Axes leaves the figure,
    and the most recently current of those left becomes current. *)
Definition delaxes (ax : axes) : Draw unit :=
  fun s =>
    ({| next_axes := next_axes s;
        stack := remove Nat.eq_dec ax (stack s);
        xlocator := xlocator s;
        ylocator := ylocator s |},
     [DelAxes ax], Ok tt).

(** [l] with [cax] put in just under its top. *)
Definition under_top (cax : axes) (l : list axes) : list axes :=
  match rev l with
  | [] => [cax]
  | top :: below => rev below ++ [cax; top]
  end.

(** A colorbar drawn for [parent] with no Axes given for it: a new Axes
    in the figure of [parent]; the Axes that was current stays current.
    The stack takes the new Axes, under its top, when [parent] is in the
    current figure. *)
Definition colorbar (parent : axes) : Draw axes :=
  fun s =>
    let cax := next_axes s in
    ({| next_axes := cax + 1;
        stack := if existsb (Nat.eqb parent) (stack s)
                 then under_top cax (stack s) else stack s;
        xlocator := xlocator s;
        ylocator := ylocator s |},
     [Colorbar cax parent], Ok cax).

Definition plot (ax : axes) (x y : list float) (kw : line_kw) : Draw unit :=
  emit (Plot ax x y kw).
Definition axhline (ax : axes) (y : float) (kw : line_kw) : Draw unit :=
  emit (AxHLine ax y kw).
Definition legend (ax : axes) (loc : option string) : Draw unit :=
  emit (Legend ax loc).
Definition annotate (ax : axes) (text : string) (xy : float * float) : Draw unit :=
  emit (Annotate ax text xy).
Definition set_title (ax : axes) (s : string) : Draw unit := emit (SetTitle ax s).
Definition set_xlabel (ax : axes) (s : string) : Draw unit := emit (SetXLabel ax s).
Definition set_ylabel (ax : axes) (s : string) : Draw unit := emit (SetYLabel ax s).
Definition set_xlim (ax : axes) (lo hi : float) : Draw unit := emit (SetXLim ax lo hi).
Definition set_ylim (ax : axes) (lo hi : float) : Draw unit := emit (SetYLim ax lo hi).

Definition update (f : axes -> option nat) (ax : axes) (n : nat) : axes -> option nat :=
  fun a => if Nat.eqb a ax then Some n else f a.

(** [set_xticks] and [set_yticks] install a fixed locator with the given
    positions. *)
Definition set_xticks (ax : axes) (ticks : list float) : Draw unit :=
  fun s =>
    ({| next_axes := next_axes s;
        stack := stack s;
        xlocator := update (xlocator s) ax (List.length ticks);
        ylocator := ylocator s |},
     [SetXTicks ax ticks], Ok tt).

Definition set_yticks (ax : axes) (ticks : list float) : Draw unit :=
  fun s =>
    ({| next_axes := next_axes s;
        stack := stack s;
        xlocator := xlocator s;
        ylocator := update (ylocator s) ax (List.length ticks) |},
     [SetYTicks ax ticks], Ok tt).

(** [set_xticklabels] and [set_yticklabels]: under a fixed locator the
    number of labels must be the number of positions (ValueError
    otherwise); nothing is checked under any other locator. *)
Definition labels_fit (loc : option nat) (labels : list string) : bool :=
  match loc with
  | Some n => Nat.eqb n (List.length labels)
  | None => true
  end.

Definition set_xticklabels (ax : axes) (labels : list string) : Draw unit :=
  fun s =>
    if labels_fit (xlocator s ax) labels then (s, [SetXTickLabels ax labels], Ok tt)
    else (s, [], Raise ValueError).

Definition set_yticklabels (ax : axes) (labels : list string) (rotation : Z) : Draw unit :=
  fun s =>
    if labels_fit (ylocator s ax) labels
    then (s, [SetYTickLabels ax labels rotation], Ok tt)
    else (s, [], Raise ValueError).

(** [for x in l: body(x)]. *)
Fixpoint for_each {A} (l : list A) (body : A -> Draw unit) : Draw unit :=
  match l with
  | [] => ret tt
  | x :: l' => bind (body x) (fun _ => for_each l' body)
  end.

End plt.

Declare Scope draw_scope.
Delimit Scope draw_scope with draw.
Notation "x <- m ;; k" := (plt.bind m (fun x => k))
  (at level 61, m at next level, right associativity) : draw_scope.
Notation "' pat <- m ;; k" := (plt.bind m (fun x => match x with pat => k end))
  (at level 61, pat pattern, m at next level, right associativity) : draw_scope.
Notation "m ;; k" := (plt.bind m (fun _ => k))
  (at level 61, right associativity) : draw_scope.

(** What seaborn makes of a heat map request: an exception (a keyword
    that it or matplotlib rejects, a mask that does not fit the data), or
    the heat map, of which two things are kept: the cells it annotated,
    each with the value written (cells under a [mask] are left out), and
    whether it made a colorbar Axes of its own (it does under [cbar],
    unless it is given one).  This is the library's doing, so it is an
    interface, like [Metrics] below. *)
Record rendering : Type := {
  annotated : list (nat * nat * Z);
  new_colorbar : bool
}.

Class Seaborn : Type := {
  render : list (list Z) -> plt.heatmap_kw -> result rendering
}.

Module sns.

(** [seaborn.heatmap(data, ..., ax=ax)]: takes [ax], or the current Axes
    when [ax] is [None]; the request is recorded as made, with the data
    and keywords given; then seaborn draws, or raises; it returns the
    Axes drawn on.  (Whatever seaborn raises is raised here, with the
    Axes taken: its checks of the request are not told apart from the
    drawing.) *)
Definition heatmap {R : Seaborn} (data : list (list Z)) (kw : plt.heatmap_kw)
    (ax : option plt.axes) : plt.Draw plt.axes :=
  (h <- match ax with Some h => plt.ret h | None => plt.gca end ;;
   plt.emit (plt.Heatmap h data kw) ;;
   drawn <- plt.lift (render data kw) ;;
   (if new_colorbar drawn then (_ <- plt.colorbar h ;; plt.ret tt)
    else plt.ret tt) ;;
   plt.ret h)%draw.

End sns.

(** ** sklearn.metrics

    The functions imported from [sklearn.metrics] that the module calls, as
    an interface.  A curve is the triple of arrays the library returns;
    [average_precision_score] takes its [pos_label] as third argument. *)

Definition curve : Type := (list float * list float * list float)%type.

Class Metrics : Type := {
  roc_curve : list Z -> list float -> result curve;
  precision_recall_curve : list Z -> list float -> result curve;
  auc : list float -> list float -> result float;
  average_precision_score : list Z -> list float -> Z -> result float;
  confusion_matrix : list Z -> list Z -> result (list (list Z))
}.

(** ** The module *)

Section Classification.

Context {M : Metrics} {R : Seaborn} {F : Format}.

Import plt.

(** The keywords of [sns.heatmap] that its call in
    [confusion_matrix_visual] binds and that [**kwargs] can hold too:
    [data], bound by position, and the five given by name.  A key of
    [**kwargs] that repeats one of them is a TypeError at the call.
    ([ax] is given by name as well, but it is a parameter of
    [confusion_matrix_visual] itself, like [title], so [**kwargs] never
    holds it.) *)
Definition heatmap_bound : list string :=
  ["data"; "square"; "annot"; "fmt"; "cbar"; "cmap"].

Definition clashes (kwargs : list (string * string)) : bool :=
  existsb (fun kv => existsb (String.eqb (fst kv)) heatmap_bound) kwargs.

(** [confusion_matrix_visual], lines 11-39. *)
Definition confusion_matrix_visual (y_true y_pred : list Z)
    (class_labels : list string) (ax : option axes) (title : option string)
    (kwargs : list (string * string)) : Draw axes :=
  (mat <- lift (confusion_matrix y_true y_pred) ;;
   axes <- (if clashes kwargs then lift (Raise TypeError)
            else sns.heatmap (np.T mat)
                   {| square := true; annot := true; fmt := "d";
                      cbar := true; cmap := "Blues"; extra := kwargs |} ax) ;;
   set_xlabel axes "Actual" ;;
   set_ylabel axes "Model Prediction" ;;
   let tick_marks := np.add_scalar (np.arange (List.length class_labels)) 0.5%float in
   set_xticks axes tick_marks ;;
   set_xticklabels axes class_labels ;;
   set_yticks axes tick_marks ;;
   set_yticklabels axes class_labels 0 ;;
   set_title axes (py.or_default title "Confusion Matrix") ;;
   ret axes)%draw.

Local Open Scope result_scope.

(** [find_threshold], lines 41-56. *)
Definition find_threshold (y_test : list Z) (y_preds : list float)
    (fpr_below tpr_above : float) : result (list float) :=
  '(fpr, tpr, thresholds) <- roc_curve y_test y_preds ;;
  mask <- np.logical_and (np.le fpr fpr_below) (np.ge tpr tpr_above) ;;
  np.getitem_mask thresholds mask.

Local Close Scope result_scope.

(** [if not ax: fig, ax = plt.subplots(1, 1)]. *)
Definition axes_or_new (ax : option axes) : Draw axes :=
  match ax with
  | Some h => ret h
  | None => (a <- subplots 1 1 None ;; lift (the_axes a))%draw
  end.

Definition baseline_kw : line_kw :=
  {| color := Some "navy"; lw := 2; linestyle := Some "--"; label := "baseline" |}.

Definition model_kw : line_kw :=
  {| color := Some "red"; lw := 2; linestyle := None; label := "model" |}.

Definition diagonal : list float := [PrimFloat.zero; PrimFloat.one].

(** [plot_roc], lines 58-80. *)
Definition plot_roc (y_test : list Z) (preds : list float)
    (ax : option axes) : Draw axes :=
  (ax <- axes_or_new ax ;;
   '(fpr, tpr, thresholds) <- lift (roc_curve y_test preds) ;;
   plot ax diagonal diagonal baseline_kw ;;
   plot ax fpr tpr model_kw ;;
   legend ax (Some "lower right") ;;
   set_title ax "ROC curve" ;;
   set_xlabel ax "False Positive Rate (FPR)" ;;
   set_ylabel ax "True Positive Rate (TPR)" ;;
   area <- lift (auc fpr tpr) ;;
   annotate ax ("AUC: " ++ format area ".2") (0.43%float, 0.025%float) ;;
   ret ax)%draw.

(** [plot_pr_curve], lines 82-115. *)
Definition plot_pr_curve (y_test : list Z) (preds : list float)
    (positive_class : Z) : Draw axes :=
  ('(precision, recall, thresholds) <- lift (precision_recall_curve y_test preds) ;;
   a <- subplots 1 1 None ;;
   axes <- lift (the_axes a) ;;
   prevalence <- lift (py.truediv (py.sum (np.eq y_test positive_class))
                                  (List.length y_test)) ;;
   axhline axes prevalence baseline_kw ;;
   plot axes recall precision model_kw ;;
   legend axes None ;;
   ap <- lift (average_precision_score y_test preds positive_class) ;;
   area <- lift (auc recall precision) ;;
   set_title axes ("Precision-recall curve" ++ py.newline
                   ++ " AP: " ++ format ap ".2" ++ " | "
                   ++ "AUC: " ++ format area ".2") ;;
   set_xlabel axes "Recall" ;;
   set_ylabel axes "Precision" ;;
   set_xlim axes (-0.05)%float 1.05%float ;;
   set_ylim axes (-0.05)%float 1.05%float ;;
   ret axes)%draw.

Definition class_kw (text : string) : line_kw :=
  {| color := None; lw := 2; linestyle := None; label := text |}.

(** The body of the loop of [plot_multi_class_roc], lines 134-138. *)
Definition plot_class_roc (y_test : list Z) (preds : np.table)
    (ax : axes) '((i, class_label) : nat * Z) : Draw unit :=
  (let actuals := np.where_ (np.eq y_test class_label) 1 0 in
   predicted_probabilities <- lift (np.getitem_col preds i) ;;
   '(fpr, tpr, thresholds) <- lift (roc_curve actuals predicted_probabilities) ;;
   auc_score <- lift (auc fpr tpr) ;;
   plot ax fpr tpr
     (class_kw ("class " ++ str class_label ++ "; AUC: " ++ format auc_score ".2")))%draw.

(** [plot_multi_class_roc], lines 117-143. *)
Definition plot_multi_class_roc (y_test : list Z) (preds : np.table)
    (ax : option axes) : Draw axes :=
  (ax <- axes_or_new ax ;;
   plot ax diagonal diagonal baseline_kw ;;
   let class_labels := np.sort (pd.unique y_test) in
   for_each (py.enumerate class_labels) (plot_class_roc y_test preds ax) ;;
   legend ax None ;;
   set_title ax "Multi-class ROC curve" ;;
   set_xlabel ax "False Positive Rate (FPR)" ;;
   set_ylabel ax "True Positive Rate (TPR)" ;;
   ret ax)%draw.

(** The body of the loop of [plot_multi_class_pr_curve], lines 167-181.
    [axes[i]] is looked up once, at its first use. *)
Definition plot_class_pr (y_test : list Z) (preds : np.table)
    (axes : list axes) '((i, class_label) : nat * Z) : Draw unit :=
  (cell <- lift (np.getitem axes i) ;;
   prevalence <- lift (py.truediv (py.sum (np.eq y_test class_label))
                                  (List.length y_test)) ;;
   axhline cell prevalence baseline_kw ;;
   let actuals := np.where_ (np.eq y_test class_label) 1 0 in
   predicted_probabilities <- lift (np.getitem_col preds i) ;;
   '(precision, recall, thresholds) <-
      lift (precision_recall_curve actuals predicted_probabilities) ;;
   auc_score <- lift (auc recall precision) ;;
   ap_score <- lift (average_precision_score actuals predicted_probabilities 1) ;;
   plot cell recall precision
     (class_kw ("AUC: " ++ format auc_score ".2" ++ "; AP : " ++ format ap_score ".2")) ;;
   legend cell None ;;
   set_title cell ("Precision-recall curve: class " ++ str class_label) ;;
   set_xlabel cell "Recall" ;;
   set_ylabel cell "Precision" ;;
   set_xlim cell (-0.05)%float 1.05%float ;;
   set_ylim cell (-0.05)%float 1.05%float)%draw.

(** The body of the loop of lines 163-164. *)
Definition delete_cell (axes : list axes) (i : nat) : Draw unit :=
  (cell <- lift (np.getitem axes i) ;; delaxes cell)%draw.

(** [plot_multi_class_pr_curve], lines 145-183. *)
Definition plot_multi_class_pr_curve (y_test : list Z)
    (preds : np.table) : Draw (list axes) :=
  (let class_labels := np.sort (pd.unique y_test) in
   let row_count := np.ceil_div (List.length class_labels) 3 in
   grid <- subplots row_count 3 (Some (15, Z.of_nat row_count * 5)) ;;
   axes <- lift (flatten grid) ;;
   (if Nat.ltb (List.length class_labels) (List.length axes)
    then for_each (py.range (List.length class_labels) (List.length axes))
                  (delete_cell axes)
    else ret tt) ;;
   for_each (py.enumerate class_labels) (plot_class_pr y_test preds axes) ;;
   ret axes)%draw.

End Classification.

(** ** Vocabulary of the statements *)

(** [Subsequence l1 l2]: [l1] is [l2] with some entries left out, the rest
    in their order. *)
Inductive Subsequence {A : Type} : list A -> list A -> Prop :=
| sub_nil : Subsequence [] []
| sub_skip : forall x l1 l2, Subsequence l1 l2 -> Subsequence l1 (x :: l2)
| sub_keep : forall x l1 l2, Subsequence l1 l2 -> Subsequence (x :: l1) (x :: l2).

(** The positions of the true bits of a mask, counted from [i]. *)
Fixpoint true_positions (i : nat) (mask : list bool) : list nat :=
  match mask with
  | [] => []
  | b :: mask' =>
      if b then i :: true_positions (S i) mask' else true_positions (S i) mask'
  end.

(** A point of the curve meets the two bounds. *)
Definition qualifies (fpr_below tpr_above : float) (fpr tpr : list float) (i : nat) : bool :=
  PrimFloat.leb (nth i fpr nan) fpr_below && PrimFloat.leb tpr_above (nth i tpr nan).

(** The labels of a confusion matrix: the distinct values of the true and
    the predicted labels together, ascending. *)
Definition unique_labels (y_true y_pred : list Z) : list Z :=
  np.sort (pd.unique (y_true ++ y_pred)).

(** Entry [(i, j)] of a two-dimensional array, when it has one. *)
Definition cell (m : list (list Z)) (i j : nat) : option Z :=
  match nth_error m i with
  | Some row => nth_error row j
  | None => None
  end.

(** [shape m r c]: [m] has [r] rows of [c] entries each. *)
Definition shape {A} (m : list (list A)) (r c : nat) : Prop :=
  List.length m = r /\ Forall (fun row => List.length row = c) m.

(** The heat maps among the recorded calls. *)
Fixpoint heatmaps (evs : list plt.Event)
  : list (plt.axes * list (list Z) * plt.heatmap_kw) :=
  match evs with
  | [] => []
  | plt.Heatmap ax data kw :: evs' => (ax, data, kw) :: heatmaps evs'
  | _ :: evs' => heatmaps evs'
  end.

(** Every cell of a two-dimensional array with its value, row by row. *)
Definition all_cells (data : list (list Z)) : list (nat * nat * Z) :=
  flat_map (fun '(i, row) => map (fun '(j, v) => (i, j, v)) (py.enumerate row))
           (py.enumerate data).

(** The tick positions set on the x axis and on the y axis of [ax], one
    entry per call. *)
Fixpoint xticks (ax : plt.axes) (evs : list plt.Event) : list (list float) :=
  match evs with
  | [] => []
  | plt.SetXTicks a ticks :: evs' =>
      if Nat.eqb a ax then ticks :: xticks ax evs' else xticks ax evs'
  | _ :: evs' => xticks ax evs'
  end.

Fixpoint yticks (ax : plt.axes) (evs : list plt.Event) : list (list float) :=
  match evs with
  | [] => []
  | plt.SetYTicks a ticks :: evs' =>
      if Nat.eqb a ax then ticks :: yticks ax evs' else yticks ax evs'
  | _ :: evs' => yticks ax evs'
  end.

(** The tick labels set on the x axis and on the y axis of [ax]. *)
Fixpoint xticklabels (ax : plt.axes) (evs : list plt.Event) : list (list string) :=
  match evs with
  | [] => []
  | plt.SetXTickLabels a labels :: evs' =>
      if Nat.eqb a ax then labels :: xticklabels ax evs' else xticklabels ax evs'
  | _ :: evs' => xticklabels ax evs'
  end.

Fixpoint yticklabels (ax : plt.axes) (evs : list plt.Event) : list (list string) :=
  match evs with
  | [] => []
  | plt.SetYTickLabels a labels _ :: evs' =>
      if Nat.eqb a ax then labels :: yticklabels ax evs' else yticklabels ax evs'
  | _ :: evs' => yticklabels ax evs'
  end.

(** The horizontal lines drawn: the Axes and the height of each. *)
Fixpoint hlines (evs : list plt.Event) : list (plt.axes * float) :=
  match evs with
  | [] => []
  | plt.AxHLine ax y _ :: evs' => (ax, y) :: hlines evs'
  | _ :: evs' => hlines evs'
  end.

Definition is_plot (e : plt.Event) : bool :=
  match e with plt.Plot _ _ _ _ => true | _ => false end.

(** Calls that create or delete an Axes. *)
Definition is_grid (e : plt.Event) : bool :=
  match e with
  | plt.Subplots _ _ _ _ | plt.AddSubplot _ | plt.Colorbar _ _ | plt.DelAxes _ => true
  | _ => false
  end.

(** Calls that set an axis label, tick positions, tick labels or the
    title. *)
Definition is_labelling (e : plt.Event) : bool :=
  match e with
  | plt.SetTitle _ _ | plt.SetXLabel _ _ | plt.SetYLabel _ _
  | plt.SetXTicks _ _ | plt.SetYTicks _ _
  | plt.SetXTickLabels _ _ | plt.SetYTickLabels _ _ _ => true
  | _ => false
  end.

(** The Axes [sns.heatmap] draws on, from the [ax] argument and the pyplot
    state. *)
Definition heatmap_axes (ax : option plt.axes) (s : plt.pyplot) : plt.axes :=
  match ax with
  | Some h => h
  | None => match plt.current s with
            | Some h => h
            | None => plt.next_axes s
            end
  end.

(** What [sns.heatmap] creates: its own Axes when none is supplied and
    pyplot has none current, and the Axes of the colorbar, which is the
    next one pyplot hands out. *)
Definition new_axes (ax : option plt.axes) (s : plt.pyplot) : list plt.Event :=
  match ax, plt.current s with
  | None, None => [plt.AddSubplot (plt.next_axes s)]
  | _, _ => []
  end.

Definition colorbar_axes (ax : option plt.axes) (s : plt.pyplot) : plt.axes :=
  match ax, plt.current s with
  | None, None => (plt.next_axes s + 1)%nat
  | _, _ => plt.next_axes s
  end.

(** The Axes the ROC plots draw on. *)
Definition roc_axes (ax : option plt.axes) (s : plt.pyplot) : plt.axes :=
  match ax with
  | Some h => h
  | None => plt.next_axes s
  end.

(** The Axes a recorded call acts on: none for a figure left empty, the
    cells a [subplots] call creates, the new Axes of a colorbar, the one
    Axes of every other call. *)
Definition targets (e : plt.Event) : list plt.axes :=
  match e with
  | plt.Figure _ => []
  | plt.Subplots _ _ _ created => created
  | plt.Colorbar cax _ => [cax]
  | plt.AddSubplot ax | plt.DelAxes ax | plt.Heatmap ax _ _
  | plt.Plot ax _ _ _ | plt.AxHLine ax _ _ | plt.Legend ax _
  | plt.Annotate ax _ _ | plt.SetTitle ax _
  | plt.SetXLabel ax _ | plt.SetYLabel ax _
  | plt.SetXTicks ax _ | plt.SetYTicks ax _
  | plt.SetXTickLabels ax _ | plt.SetYTickLabels ax _ _
  | plt.SetXLim ax _ _ | plt.SetYLim ax _ _ => [ax]
  end.

(** The titles set, the text annotations written, and the axis limits
    set, each with its Axes. *)
Fixpoint titles (evs : list plt.Event) : list (plt.axes * string) :=
  match evs with
  | [] => []
  | plt.SetTitle ax t :: evs' => (ax, t) :: titles evs'
  | _ :: evs' => titles evs'
  end.


Fixpoint limits (evs : list plt.Event) : list plt.Event :=
  match evs with
  | [] => []
  | plt.SetXLim ax lo hi :: evs' => plt.SetXLim ax lo hi :: limits evs'
  | plt.SetYLim ax lo hi :: evs' => plt.SetYLim ax lo hi :: limits evs'
  | _ :: evs' => limits evs'
  end.

(** The prevalence of class [c] among the labels, as the plots compute it:
    the count of entries equal to [c] over the number of entries, in
    float64. *)
Definition prevalence (y_test : list Z) (c : Z) : float :=
  PrimFloat.div (np.float64 (Z.of_nat (count_occ Z.eq_dec y_test c)))
                (np.float64 (Z.of_nat (List.length y_test))).

(** The library answered with a curve. *)
Definition is_curve_ok (r : result curve) : bool :=
  match r with Ok _ => true | Raise _ => false end.

(** The labels binarized against class [c]: 1 where the label is [c], 0
    elsewhere. *)
Definition binarized (y_test : list Z) (c : Z) : list Z :=
  map (fun v => if Z.eq_dec v c then 1 else 0) y_test.

(** [column] is column [i] of the table: the table has a column [i], and
    [column] holds one entry per row, the [i]-th entry of that row. *)
Definition is_column (preds : np.table) (i : nat) (column : list float) : Prop :=
  (i < np.width preds)%nat /\
  Forall2 (fun row v => nth_error row i = Some v) (np.rows preds) column.

Section OneVsRest.

Context {M : Metrics} {F : Format}.

(** The library answers for class [c], the [i]-th class, in the
    multi-class ROC plot: the curve of the labels binarized against [c]
    and column [i] of the table, and the area under that curve. *)
Definition roc_of_class (y_test : list Z) (preds : np.table)
    (i : nat) (c : Z) (fpr tpr : list float) (area : float) : Prop :=
  exists column thresholds,
    is_column preds i column /\
    roc_curve (binarized y_test c) column = Ok (fpr, tpr, thresholds) /\
    auc fpr tpr = Ok area.

(** The same for the multi-class precision-recall plot, in the code's
    own terms. *)
Definition pr_of_class (y_test : list Z) (preds : np.table)
    (i : nat) (c : Z) (precision recall : list float) (area ap : float) : Prop :=
  exists column thresholds,
    np.getitem_col preds i = Ok column /\
    precision_recall_curve (np.where_ (np.eq y_test c) 1 0) column
    = Ok (precision, recall, thresholds) /\
    auc recall precision = Ok area /\
    average_precision_score (np.where_ (np.eq y_test c) 1 0) column 1 = Ok ap.

(** [e] is the curve of class [c], the [i]-th class, on [ax]: the ROC
    curve the library computes one-vs-rest, drawn with line width 2 in
    the default colour and style, labelled "class [c]; AUC: [area]" with
    the area to two decimals. *)
Definition class_curve (y_test : list Z) (preds : np.table)
    (ax : plt.axes) (i : nat) (c : Z) (e : plt.Event) : Prop :=
  exists fpr tpr area,
    roc_of_class y_test preds i c fpr tpr area /\
    e = plt.Plot ax fpr tpr
          {| plt.color := None; plt.lw := 2; plt.linestyle := None;
             plt.label := "class " ++ str c ++ "; AUC: " ++ format area ".2" |}.

(** [curves] holds one curve per class, in the order of the classes. *)
Definition class_curves (y_test : list Z) (preds : np.table)
    (ax : plt.axes) (classes : list Z) (curves : list plt.Event) : Prop :=
  List.length curves = List.length classes /\
  forall i c, nth_error classes i = Some c ->
    exists e, nth_error curves i = Some e /\ class_curve y_test preds ax i c e.

End OneVsRest.

(** ** A sample library

    One implementation of each interface, to run the module on
    examples.  The confusion matrix is counted as the library documents it
    (entry [(i, j)]: the samples of true label [i] predicted [j], over the
    sorted labels; inputs of different lengths are a ValueError).  The curve
    functions answer with one fixed curve whatever the input, and the areas
    with 1. *)

Module Sample.

Definition count_pairs (y_true y_pred : list Z) (a b : Z) : Z :=
  Z.of_nat (List.length
    (filter (fun p => (fst p =? a) && (snd p =? b)) (combine y_true y_pred))).

Definition confusion (y_true y_pred : list Z) : result (list (list Z)) :=
  if Nat.eqb (List.length y_true) (List.length y_pred)
  then let labels := unique_labels y_true y_pred in
       Ok (map (fun a => map (count_pairs y_true y_pred a) labels) labels)
  else Raise ValueError.

Definition roc : curve :=
  ([0; 0; 0; 1], [0; 0.5; 1; 1], [infinity; 0.9; 0.6; 0.2])%float.

Definition pr : curve :=
  ([0.5; 1; 1], [1; 0.5; 0], [0.25; 0.75])%float.

Definition metrics : Metrics :=
  {| roc_curve := fun _ _ => Ok roc;
     precision_recall_curve := fun _ _ => Ok pr;
     auc := fun _ _ => Ok 1%float;
     average_precision_score := fun _ _ _ => Ok 1%float;
     confusion_matrix := confusion |}.

Definition text : Format :=
  {| str := fun z => NilZero.string_of_int (Z.to_int z);
     format := fun _ _ => "1.0" |}.

(** Five samples of the four classes 0, 1, 2 and 5, and a probability
    table with one column per class. *)
Definition labels : list Z := [2; 0; 1; 0; 5].

Definition table : np.table :=
  {| np.width := 4;
     np.rows := [[0.125; 0.125; 0.5; 0.25];
                 [0.5; 0.25; 0.125; 0.125];
                 [0.25; 0.5; 0.125; 0.125];
                 [0.75; 0.125; 0.125; 0];
                 [0.125; 0.125; 0.25; 0.5]]%float |}.

(** The same table cut down to two columns, and widened by a fifth. *)
Definition narrow : np.table :=
  {| np.width := 2; np.rows := map (firstn 2) (np.rows table) |}.

Definition wide : np.table :=
  {| np.width := 5; np.rows := map (fun row => row ++ [1%float]) (np.rows table) |}.

(** A seaborn that takes no keyword beyond those of the call in
    [confusion_matrix_visual] (any other is an AttributeError, raised
    while drawing), annotates every cell when [annot] is set and makes a
    colorbar when [cbar] is. *)
Definition seaborn : Seaborn :=
  {| render := fun data kw =>
       match plt.extra kw with
       | [] => Ok {| annotated := if plt.annot kw then all_cells data else [];
                     new_colorbar := plt.cbar kw |}
       | _ :: _ => Raise AttributeError
       end |}.

(** Variants of the library: one whose ROC curve has undefined
    false-positive rates, one that refuses every input, and one whose
    ROC curve shows what it was given (the labels as false-positive
    rates, the scores as true-positive rates and as thresholds) and
    whose area is the number of points. *)
Definition undefined_fpr : Metrics :=
  {| roc_curve := fun _ _ => Ok ([nan; nan], [0; 1], [infinity; 0.5])%float;
     precision_recall_curve := fun _ _ => Ok pr;
     auc := fun _ _ => Ok 1%float;
     average_precision_score := fun _ _ _ => Ok 1%float;
     confusion_matrix := confusion |}.

Definition refusing : Metrics :=
  {| roc_curve := fun _ _ => Raise ValueError;
     precision_recall_curve := fun _ _ => Raise ValueError;
     auc := fun _ _ => Raise ValueError;
     average_precision_score := fun _ _ _ => Raise ValueError;
     confusion_matrix := fun _ _ => Raise ValueError |}.

Definition echo : Metrics :=
  {| roc_curve := fun y_true y_score =>
       if Nat.eqb (List.length y_true) (List.length y_score)
       then Ok (map np.float64 y_true, y_score, y_score)
       else Raise ValueError;
     precision_recall_curve := fun _ _ => Ok pr;
     auc := fun x _ => Ok (np.float64 (Z.of_nat (List.length x)));
     average_precision_score := fun _ _ _ => Ok 1%float;
     confusion_matrix := confusion |}.

(** pyplot before anything was drawn. *)
Definition fresh : plt.pyplot :=
  {| plt.next_axes := 0;
     plt.stack := [];
     plt.xlocator := fun _ => None;
     plt.ylocator := fun _ => None |}.

End Sample.

(* ================================================================== *)
(** * Properties *)

(** Unfolds the drawing monad and the recording calls, leaving the library
    calls and the NumPy operations in place. *)
Ltac run :=
  cbv beta iota zeta delta
    [plt.bind plt.ret plt.emit plt.lift plt.gca plt.subplots plt.the_axes
     plt.squeeze sns.heatmap axes_or_new
     plt.plot plt.axhline plt.legend plt.annotate plt.delaxes plt.colorbar
     plt.set_title plt.set_xlabel plt.set_ylabel plt.set_xlim plt.set_ylim
     plt.set_xticks plt.set_yticks plt.set_xticklabels plt.set_yticklabels
     plt.xlocator plt.ylocator plt.next_axes plt.stack plt.current
     plt.outcome plt.events fst snd app Nat.eqb andb orb].

(** ** The drawing monad *)

Lemma bind_run {A B} (m : plt.Draw A) (k : A -> plt.Draw B)
    (s s1 s2 : plt.pyplot) (ev1 ev2 : list plt.Event) (a : A) (r : result B) :
  m s = (s1, ev1, Ok a) ->
  k a s1 = (s2, ev2, r) ->
  plt.bind m k s = (s2, ev1 ++ ev2, r).
Proof. intros Hm Hk. unfold plt.bind. rewrite Hm, Hk. reflexivity. Qed.

Lemma bind_raise {A B} (m : plt.Draw A) (k : A -> plt.Draw B)
    (s s1 : plt.pyplot) (ev1 : list plt.Event) (e : exn) :
  m s = (s1, ev1, Raise e) ->
  plt.bind m k s = (s1, ev1, Raise e).
Proof. intros Hm. unfold plt.bind. rewrite Hm. reflexivity. Qed.

Lemma bind_events {A B} (m : plt.Draw A) (k : A -> plt.Draw B) (s : plt.pyplot) :
  exists rest, plt.events (plt.bind m k s) = plt.events (m s) ++ rest /\
    (rest = [] \/ exists a s1, rest = plt.events (k a s1)).
Proof.
  unfold plt.bind.
  destruct (m s) as [[s1 ev1] [a|e]].
  - destruct (k a s1) as [[s2 ev2] r] eqn:Hk. exists ev2; split; auto.
    right. exists a, s1. rewrite Hk. reflexivity.
  - exists []. rewrite app_nil_r. auto.
Qed.

Lemma for_each_cons_run {A} (body : A -> plt.Draw unit) (x : A) (l : list A)
    (s s1 s2 : plt.pyplot) (ev1 ev2 : list plt.Event) (r : result unit) :
  body x s = (s1, ev1, Ok tt) ->
  plt.for_each l body s1 = (s2, ev2, r) ->
  plt.for_each (x :: l) body s = (s2, ev1 ++ ev2, r).
Proof. intros Hx Hl. cbn [plt.for_each]. eapply bind_run; eassumption. Qed.

(** A loop whose body never records a call of some kind records none of
    that kind. *)
Lemma for_each_filter {A} (p : plt.Event -> bool) (body : A -> plt.Draw unit) :
  (forall x s, filter p (plt.events (body x s)) = []) ->
  forall l s, filter p (plt.events (plt.for_each l body s)) = [].
Proof.
  intros Hbody l; induction l as [|x l IH]; intros s; simpl; auto.
  destruct (bind_events (body x) (fun _ => plt.for_each l body) s)
    as (rest & -> & Hrest).
  rewrite filter_app, Hbody; simpl.
  destruct Hrest as [-> | (a & s1 & ->)]; auto.
Qed.

(** ** Sorted class labels *)

Lemma unique_In (l : list Z) (x : Z) : In x (pd.unique l) <-> In x l.
Proof.
  induction l as [|y l IH]; simpl; [tauto|].
  rewrite filter_In, IH.
  destruct (Z.eq_dec y x) as [->|Hne]; [tauto|].
  split; [tauto|]. intros [H|H]; [tauto|]. right; split; auto.
  apply negb_true_iff, Z.eqb_neq. congruence.
Qed.

Lemma unique_NoDup (l : list Z) : NoDup (pd.unique l).
Proof.
  induction l as [|y l IH]; simpl; constructor.
  - rewrite filter_In, Z.eqb_refl. simpl. intros [_ H]; discriminate.
  - apply NoDup_filter, IH.
Qed.

Lemma insert_In (x : Z) (l : list Z) (y : Z) :
  In y (np.insert x l) <-> y = x \/ In y l.
Proof.
  induction l as [|z l IH]; simpl; [intuition|].
  destruct (x <=? z); simpl; rewrite ?IH; intuition.
Qed.

Lemma sort_In (l : list Z) (y : Z) : In y (np.sort l) <-> In y l.
Proof.
  induction l as [|x l IH]; simpl; [tauto|].
  rewrite insert_In, IH. intuition.
Qed.

Lemma insert_sorted (x : Z) (l : list Z) :
  StronglySorted Z.lt l -> ~ In x l -> StronglySorted Z.lt (np.insert x l).
Proof.
  induction 1 as [|z l Hl IH Hz]; intros Hx; simpl.
  - repeat constructor.
  - assert (Hxz : x <> z) by (intros ->; apply Hx; left; reflexivity).
    destruct (Z.leb_spec x z).
    + constructor; [constructor; assumption|].
      constructor; [lia|].
      rewrite Forall_forall in *. intros y Hy. specialize (Hz y Hy). lia.
    + constructor.
      * apply IH. intros Hin; apply Hx; right; assumption.
      * rewrite Forall_forall in *. intros y Hy.
        apply insert_In in Hy. destruct Hy as [->|Hy]; [lia | auto].
Qed.

Lemma sort_sorted (l : list Z) : NoDup l -> StronglySorted Z.lt (np.sort l).
Proof.
  induction 1 as [|x l Hx Hl IH]; simpl; [constructor|].
  apply insert_sorted; auto. rewrite sort_In. assumption.
Qed.

(** The class labels the multi-class plots loop over are the distinct
    values of [y_test], strictly ascending. *)
Lemma class_labels_spec (y_test : list Z) :
  StronglySorted Z.lt (np.sort (pd.unique y_test)) /\
  (forall c, In c (np.sort (pd.unique y_test)) <-> In c y_test).
Proof.
  split.
  - apply sort_sorted, unique_NoDup.
  - intros c. rewrite sort_In. apply unique_In.
Qed.

Lemma enumerate_from_In {A} (l : list A) :
  forall k i x, In (i, x) (combine (seq k (List.length l)) l) ->
                exists j, i = (k + j)%nat /\ nth_error l j = Some x.
Proof.
  induction l as [|y l IH]; intros k i x H; simpl in H; [contradiction|].
  destruct H as [H|H].
  - injection H as <- <-. exists 0%nat; split; [lia | reflexivity].
  - apply IH in H. destruct H as [j [-> Hj]].
    exists (S j); split; [lia | assumption].
Qed.

Lemma enumerate_In {A} (l : list A) (i : nat) (x : A) :
  In (i, x) (py.enumerate l) -> nth_error l i = Some x.
Proof.
  intros H. apply enumerate_from_In in H. destruct H as [j [-> Hj]]. exact Hj.
Qed.

(** ** Boolean masks *)

Lemma Subsequence_nil {A} (l : list A) : Subsequence [] l.
Proof. induction l; constructor; assumption. Qed.

Lemma compress_Subsequence {A} (mask : list bool) (a : list A) :
  Subsequence (np.compress mask a) a.
Proof.
  revert a; induction mask as [|b mask IH]; intros [|x a]; simpl;
    try apply Subsequence_nil.
  destruct b; constructor; apply IH.
Qed.

Lemma Subsequence_In {A} (l1 l2 : list A) :
  Subsequence l1 l2 -> forall x, In x l1 -> In x l2.
Proof.
  induction 1; simpl; intros y Hy; auto.
  destruct Hy as [->|Hy]; auto.
Qed.

Lemma compress_positions {A} (d : A) (mask : list bool) (a : list A) :
  List.length mask = List.length a ->
  forall pre, np.compress mask a
    = map (fun i => nth i (pre ++ a) d) (true_positions (List.length pre) mask).
Proof.
  revert a; induction mask as [|b mask IH]; intros [|x a] Hlen pre;
    simpl in *; try discriminate; auto.
  injection Hlen as Hlen.
  specialize (IH a Hlen (pre ++ [x])).
  rewrite <- app_assoc, length_app, Nat.add_1_r in IH; simpl in IH.
  destruct b; simpl; rewrite IH; auto.
  f_equal. rewrite app_nth2, Nat.sub_diag by lia. reflexivity.
Qed.

Lemma true_positions_spec (mask : list bool) :
  forall k i, In i (true_positions k mask) <->
              exists j, i = (k + j)%nat /\ nth_error mask j = Some true.
Proof.
  induction mask as [|b mask IH]; intros k i; simpl.
  - split; [tauto|]. intros [[|j] [_ H]]; discriminate.
  - assert (Hstep : In i (true_positions (S k) mask) <->
                    exists j, i = (k + S j)%nat /\ nth_error mask j = Some true).
    { rewrite IH. split; intros [j [E H]]; exists j; split; auto; lia. }
    destruct b; simpl; rewrite Hstep; split.
    + intros [E|[j [E H]]].
      * exists 0%nat; split; [lia | reflexivity].
      * exists (S j); auto.
    + intros [[|j] [E H]]; [left; lia | right; exists j; auto].
    + intros [j [E H]]; exists (S j); auto.
    + intros [[|j] [E H]]; [discriminate | exists j; auto].
Qed.

Lemma true_positions_lower (mask : list bool) :
  forall k i, In i (true_positions k mask) -> (k <= i)%nat.
Proof. intros k i H; apply true_positions_spec in H; destruct H as [j [-> _]]; lia. Qed.

Lemma true_positions_sorted (mask : list bool) :
  forall k, StronglySorted lt (true_positions k mask).
Proof.
  induction mask as [|b mask IH]; intros k; simpl; [constructor|].
  destruct b; auto.
  constructor; auto.
  apply Forall_forall; intros i Hi.
  apply true_positions_lower in Hi; lia.
Qed.

Lemma zip_with_length {A B C} (f : A -> B -> C) (a : list A) (b : list B) :
  List.length a = List.length b ->
  List.length (np.zip_with f a b) = List.length a.
Proof.
  revert b; induction a as [|x a IH]; intros [|y b] H; simpl in *;
    try discriminate; auto.
Qed.

Lemma zip_with_nth_error {A B C} (f : A -> B -> C) (a : list A) (b : list B) :
  forall i x y, nth_error a i = Some x -> nth_error b i = Some y ->
                nth_error (np.zip_with f a b) i = Some (f x y).
Proof.
  revert b; induction a as [|x0 a IH]; intros [|y0 b] [|i] x y Ha Hb;
    simpl in *; try discriminate.
  - congruence.
  - eauto.
Qed.

Lemma compress_none {A} (mask : list bool) (a : list A) :
  (forall i b, nth_error mask i = Some b -> b = false) ->
  np.compress mask a = [].
Proof.
  revert a; induction mask as [|b mask IH]; intros [|x a] Hnone; simpl; auto.
  rewrite (Hnone 0%nat b eq_refl).
  apply IH. intros i b' Hi. apply (Hnone (S i)). exact Hi.
Qed.

(** ** Threshold selection *)

Section FindThreshold.

Context {M : Metrics}.

Variables (y_test : list Z) (y_preds : list float).
Variables (fpr_below tpr_above : float).

(** The mask the function builds from an aligned curve. *)
Lemma mask_aligned (fpr tpr : list float) :
  List.length fpr = List.length tpr ->
  np.logical_and (np.le fpr fpr_below) (np.ge tpr tpr_above)
  = Ok (np.zip_with andb (np.le fpr fpr_below) (np.ge tpr tpr_above)).
Proof.
  intros H. unfold np.logical_and, np.le, np.ge.
  rewrite !length_map, H, Nat.eqb_refl. reflexivity.
Qed.

Lemma mask_length (fpr tpr : list float) :
  List.length fpr = List.length tpr ->
  List.length (np.zip_with andb (np.le fpr fpr_below) (np.ge tpr tpr_above))
  = List.length fpr.
Proof.
  intros H. rewrite zip_with_length; unfold np.le, np.ge;
    rewrite !length_map; auto.
Qed.

Lemma mask_bit (fpr tpr : list float) (i : nat) :
  List.length fpr = List.length tpr -> (i < List.length fpr)%nat ->
  nth_error (np.zip_with andb (np.le fpr fpr_below) (np.ge tpr tpr_above)) i
  = Some (qualifies fpr_below tpr_above fpr tpr i).
Proof.
  intros Hlen Hi. unfold qualifies.
  apply zip_with_nth_error; unfold np.le, np.ge;
    rewrite nth_error_map.
  - rewrite (nth_error_nth' fpr nan) by lia. reflexivity.
  - rewrite (nth_error_nth' tpr nan) by lia. reflexivity.
Qed.

Lemma find_threshold_aligned (fpr tpr thresholds : list float) :
  roc_curve y_test y_preds = Ok (fpr, tpr, thresholds) ->
  List.length fpr = List.length thresholds ->
  List.length tpr = List.length thresholds ->
  find_threshold y_test y_preds fpr_below tpr_above
  = Ok (np.compress
          (np.zip_with andb (np.le fpr fpr_below) (np.ge tpr tpr_above))
          thresholds).
Proof.
  intros Hroc Hf Ht. unfold find_threshold. rewrite Hroc; simpl.
  rewrite mask_aligned by congruence; simpl.
  unfold np.getitem_mask.
  rewrite mask_length, Hf, Nat.eqb_refl by congruence. reflexivity.
Qed.

(** Whenever a sequence is returned, it was cut out of the thresholds of
    the library's curve by a mask. *)
Lemma find_threshold_returns (res : list float) :
  find_threshold y_test y_preds fpr_below tpr_above = Ok res ->
  exists fpr tpr thresholds mask,
    roc_curve y_test y_preds = Ok (fpr, tpr, thresholds) /\
    res = np.compress mask thresholds.
Proof.
  unfold find_threshold.
  destruct (roc_curve y_test y_preds) as [[[fpr tpr] thresholds]|e];
    simpl; [|discriminate].
  destruct (np.logical_and _ _) as [mask|e]; simpl; [|discriminate].
  unfold np.getitem_mask.
  destruct (Nat.eqb _ _); [|discriminate].
  intros H; injection H as <-.
  exists fpr, tpr, thresholds, mask; auto.
Qed.

(** C1. On the curve the library computes for the input (three arrays of
    one length), [find_threshold] returns the thresholds at exactly the
    positions whose FPR is at most [fpr_below] and whose TPR is at least
    [tpr_above]: the kept positions, in increasing order, all meet both
    bounds, and every position left out fails one of them. *)
Theorem find_threshold_exact (fpr tpr thresholds : list float) :
  roc_curve y_test y_preds = Ok (fpr, tpr, thresholds) ->
  List.length fpr = List.length thresholds ->
  List.length tpr = List.length thresholds ->
  exists kept : list nat,
    find_threshold y_test y_preds fpr_below tpr_above
    = Ok (map (fun i => nth i thresholds nan) kept) /\
    StronglySorted lt kept /\
    (forall i, In i kept ->
       (i < List.length thresholds)%nat /\
       PrimFloat.leb (nth i fpr nan) fpr_below = true /\
       PrimFloat.leb tpr_above (nth i tpr nan) = true) /\
    (forall i, (i < List.length thresholds)%nat -> ~ In i kept ->
       PrimFloat.leb (nth i fpr nan) fpr_below = false \/
       PrimFloat.leb tpr_above (nth i tpr nan) = false).
Proof.
  intros Hroc Hf Ht.
  set (mask := np.zip_with andb (np.le fpr fpr_below) (np.ge tpr tpr_above)).
  assert (Hlen : List.length mask = List.length thresholds).
  { unfold mask. rewrite mask_length; congruence. }
  assert (Hbit : forall i, (i < List.length thresholds)%nat ->
                   nth_error mask i = Some (qualifies fpr_below tpr_above fpr tpr i)).
  { intros i Hi. apply mask_bit; congruence. }
  exists (true_positions 0 mask). repeat split.
  - rewrite (find_threshold_aligned Hroc Hf Ht). f_equal.
    apply (compress_positions nan mask thresholds Hlen []).
  - apply true_positions_sorted.
  - apply true_positions_spec in H. destruct H as [j [-> Hj]]; simpl.
    rewrite <- Hlen. apply nth_error_Some. congruence.
  - apply true_positions_spec in H. destruct H as [j [-> Hj]]; simpl.
    assert (Hlt : (j < List.length thresholds)%nat).
    { rewrite <- Hlen. apply nth_error_Some. congruence. }
    rewrite (Hbit j Hlt) in Hj. injection Hj as Hj.
    apply andb_prop in Hj. tauto.
  - apply true_positions_spec in H. destruct H as [j [-> Hj]]; simpl.
    assert (Hlt : (j < List.length thresholds)%nat).
    { rewrite <- Hlen. apply nth_error_Some. congruence. }
    rewrite (Hbit j Hlt) in Hj. injection Hj as Hj.
    apply andb_prop in Hj. tauto.
  - intros i Hi Hout.
    specialize (Hbit i Hi).
    destruct (qualifies fpr_below tpr_above fpr tpr i) eqn:Hq.
    + exfalso. apply Hout. apply true_positions_spec.
      exists i; split; auto.
    + unfold qualifies in Hq. apply andb_false_iff in Hq. exact Hq.
Qed.

(** C2. Every value [find_threshold] returns is one of the thresholds of
    the curve the library computed on the same input. *)
Theorem find_threshold_on_grid (res : list float) :
  find_threshold y_test y_preds fpr_below tpr_above = Ok res ->
  exists fpr tpr thresholds,
    roc_curve y_test y_preds = Ok (fpr, tpr, thresholds) /\
    forall t, In t res -> In t thresholds.
Proof.
  intros H. apply find_threshold_returns in H.
  destruct H as (fpr & tpr & thresholds & mask & Hroc & ->).
  exists fpr, tpr, thresholds; split; auto.
  apply Subsequence_In, compress_Subsequence.
Qed.

(** C3. When no point of the library's curve meets both bounds, the
    function returns the empty sequence; it does not raise. *)
Theorem find_threshold_none (fpr tpr thresholds : list float) :
  roc_curve y_test y_preds = Ok (fpr, tpr, thresholds) ->
  List.length fpr = List.length thresholds ->
  List.length tpr = List.length thresholds ->
  (forall i, (i < List.length thresholds)%nat ->
     ~ (PrimFloat.leb (nth i fpr nan) fpr_below = true /\
        PrimFloat.leb tpr_above (nth i tpr nan) = true)) ->
  find_threshold y_test y_preds fpr_below tpr_above = Ok [].
Proof.
  intros Hroc Hf Ht Hnone.
  rewrite (find_threshold_aligned Hroc Hf Ht). f_equal.
  apply compress_none. intros i b Hb.
  assert (Hi : (i < List.length thresholds)%nat).
  { rewrite <- Hf, <- (mask_length fpr tpr) by congruence.
    apply nth_error_Some. congruence. }
  rewrite mask_bit in Hb by congruence. injection Hb as <-.
  unfold qualifies.
  destruct (PrimFloat.leb (nth i fpr nan) fpr_below) eqn:H1; [|reflexivity].
  destruct (PrimFloat.leb tpr_above (nth i tpr nan)) eqn:H2; [|reflexivity].
  exfalso. apply (Hnone i Hi). auto.
Qed.

(** C10. The sequence [find_threshold] returns keeps the order of the
    library's threshold sequence: it is that sequence with entries left
    out. *)
Theorem find_threshold_order (res : list float) :
  find_threshold y_test y_preds fpr_below tpr_above = Ok res ->
  exists fpr tpr thresholds,
    roc_curve y_test y_preds = Ok (fpr, tpr, thresholds) /\
    Subsequence res thresholds.
Proof.
  intros H. apply find_threshold_returns in H.
  destruct H as (fpr & tpr & thresholds & mask & Hroc & ->).
  exists fpr, tpr, thresholds; split; auto.
  apply compress_Subsequence.
Qed.

End FindThreshold.

(** ** Confusion matrix heat map *)

Lemma transpose_cell (m : list (list Z)) (c : nat) :
  Forall (fun row => List.length row = c) m ->
  forall i j, cell (np.T m) i j = cell m j i.
Proof.
  intros Hrect i j. unfold cell, np.T.
  assert (Hc : m <> [] -> np.ncols m = c).
  { destruct m as [|r m]; [congruence|]. intros _; simpl.
    inversion Hrect; assumption. }
  rewrite nth_error_map.
  destruct (nth_error m j) as [row|] eqn:Hj.
  - assert (Hne : m <> []) by (intros ->; destruct j; discriminate).
    rewrite (Hc Hne).
    assert (Hrow : List.length row = c).
    { apply nth_error_In in Hj. rewrite Forall_forall in Hrect. auto. }
    destruct (lt_dec i c) as [Hlt|Hge].
    + rewrite nth_error_seq. destruct (Nat.ltb_spec i c); [|lia]. simpl.
      rewrite nth_error_map, Hj; simpl.
      symmetry. apply nth_error_nth'. lia.
    + rewrite nth_error_seq. destruct (Nat.ltb_spec i c); [lia|]. simpl.
      symmetry. apply nth_error_None. lia.
  - destruct (nth_error (seq 0 (np.ncols m)) i); simpl; auto.
    rewrite nth_error_map, Hj. reflexivity.
Qed.

Lemma tick_marks_length (n : nat) (c : float) :
  List.length (np.add_scalar (np.arange n) c) = n.
Proof. unfold np.add_scalar, np.arange. rewrite !length_map, length_seq. reflexivity. Qed.

Lemma enumerate_flat_length {A B} (f : nat -> A -> list B) (g : A -> nat) :
  (forall i x, List.length (f i x) = g x) ->
  forall (l : list A) (k : nat),
    List.length (flat_map (fun '(i, x) => f i x) (combine (seq k (List.length l)) l))
    = list_sum (map g l).
Proof.
  intros Hf l; induction l as [|x l IH]; intros k; simpl; auto.
  rewrite length_app, Hf, IH. reflexivity.
Qed.

Lemma enumerate_length {A} (l : list A) :
  List.length (py.enumerate l) = List.length l.
Proof.
  unfold py.enumerate. rewrite length_combine, length_seq. apply Nat.min_id.
Qed.

Lemma all_cells_length (data : list (list Z)) :
  List.length (all_cells data) = list_sum (map (@List.length Z) data).
Proof.
  unfold all_cells, py.enumerate at 2.
  apply (enumerate_flat_length
           (fun i (row : list Z) => map (fun '(j, v) => (i, j, v)) (py.enumerate row))).
  intros i row. rewrite length_map. apply enumerate_length.
Qed.

Lemma list_sum_const {A} (f : A -> nat) (c : nat) (l : list A) :
  (forall x, In x l -> f x = c) -> list_sum (map f l) = (List.length l * c)%nat.
Proof.
  induction l as [|x l IH]; intros H; simpl; auto.
  rewrite (H x) by (left; reflexivity).
  rewrite IH by (intros; apply H; right; assumption). reflexivity.
Qed.

Lemma transpose_size (m : list (list Z)) (n : nat) :
  shape m n n ->
  list_sum (map (@List.length Z) (np.T m)) = (n * n)%nat.
Proof.
  intros [Hrows Hcols]. unfold np.T.
  rewrite list_sum_const with (c := List.length m).
  - rewrite length_map, length_seq, Hrows.
    destruct m as [|r m]; simpl in *; [subst; reflexivity|].
    inversion Hcols; subst. congruence.
  - intros row Hrow. apply in_map_iff in Hrow. destruct Hrow as [j [<- _]].
    apply length_map.
Qed.

Section ConfusionMatrixVisual.

Context {M : Metrics} {R : Seaborn}.

Variables (y_true y_pred : list Z) (class_labels : list string).
Variables (ax : option plt.axes) (title : option string).
Variables (kwargs : list (string * string)) (s : plt.pyplot).

Local Abbreviation out :=
  (confusion_matrix_visual y_true y_pred class_labels ax title kwargs s).
Local Abbreviation h := (heatmap_axes ax s).
Local Abbreviation tick_marks :=
  (np.add_scalar (np.arange (List.length class_labels)) 0.5%float).
Local Abbreviation kw :=
  {| plt.square := true; plt.annot := true; plt.fmt := "d";
     plt.cbar := true; plt.cmap := "Blues"; plt.extra := kwargs |}.
Local Abbreviation labelling :=
  [plt.SetXLabel h "Actual";
   plt.SetYLabel h "Model Prediction";
   plt.SetXTicks h tick_marks;
   plt.SetXTickLabels h class_labels;
   plt.SetYTicks h tick_marks;
   plt.SetYTickLabels h class_labels 0;
   plt.SetTitle h (py.or_default title "Confusion Matrix")].

(** The heat map call takes its Axes and records the request, whatever
    seaborn then makes of it. *)
Lemma heatmap_request (data : list (list Z)) (k : plt.heatmap_kw) :
  exists s1 rest,
    sns.heatmap data k ax s
    = (s1, new_axes ax s ++ plt.Heatmap h data k :: rest,
       match render data k with Ok _ => Ok h | Raise e => Raise e end) /\
    plt.xlocator s1 = plt.xlocator s /\
    plt.ylocator s1 = plt.ylocator s /\
    rest = match render data k with
           | Ok drawn => if new_colorbar drawn
                         then [plt.Colorbar (colorbar_axes ax s) h] else []
           | Raise _ => []
           end.
Proof.
  destruct s as [n st xl yl].
  unfold sns.heatmap, heatmap_axes, new_axes, colorbar_axes, plt.gca, plt.current.
  destruct ax as [a|]; run; [|destruct (rev st) as [|a st']];
    run; destruct (render data k) as [drawn|e];
    try destruct (new_colorbar drawn);
    run; eexists _, _; repeat split; reflexivity.
Qed.

(** The tick labels always fit: positions and labels both come from
    [class_labels]. *)
Lemma labelling_run (a : plt.axes) (s1 : plt.pyplot) :
  exists s2,
    (plt.bind (plt.set_xlabel a "Actual") (fun _ =>
     plt.bind (plt.set_ylabel a "Model Prediction") (fun _ =>
     plt.bind (plt.set_xticks a tick_marks) (fun _ =>
     plt.bind (plt.set_xticklabels a class_labels) (fun _ =>
     plt.bind (plt.set_yticks a tick_marks) (fun _ =>
     plt.bind (plt.set_yticklabels a class_labels 0) (fun _ =>
     plt.bind (plt.set_title a (py.or_default title "Confusion Matrix")) (fun _ =>
     plt.ret a)))))))) s1
    = (s2,
       [plt.SetXLabel a "Actual";
        plt.SetYLabel a "Model Prediction";
        plt.SetXTicks a tick_marks;
        plt.SetXTickLabels a class_labels;
        plt.SetYTicks a tick_marks;
        plt.SetYTickLabels a class_labels 0;
        plt.SetTitle a (py.or_default title "Confusion Matrix")],
       Ok a).
Proof.
  assert (Hfit : forall f : plt.axes -> option nat,
             plt.labels_fit (plt.update f a (List.length tick_marks) a) class_labels = true).
  { intros f. unfold plt.update, plt.labels_fit. rewrite Nat.eqb_refl.
    rewrite tick_marks_length. apply Nat.eqb_refl. }
  destruct s1 as [n st xl yl]. run. rewrite !Hfit. eexists. reflexivity.
Qed.

(** The whole run, when the library computes the matrix and no keyword
    is repeated. *)
Lemma confusion_matrix_visual_run (mat : list (list Z)) :
  confusion_matrix y_true y_pred = Ok mat ->
  clashes kwargs = false ->
  match render (np.T mat) kw with
  | Ok drawn =>
      plt.outcome out = Ok h /\
      plt.events out
      = new_axes ax s ++ plt.Heatmap h (np.T mat) kw
          :: (if new_colorbar drawn then [plt.Colorbar (colorbar_axes ax s) h] else [])
          ++ labelling
  | Raise e =>
      plt.outcome out = Raise e /\
      plt.events out = new_axes ax s ++ [plt.Heatmap h (np.T mat) kw]
  end.
Proof.
  intros Hmat Hkw.
  destruct (heatmap_request (np.T mat) kw) as (s1 & rest & Hrun & _ & _ & Hrest).
  assert (Hcall : (if clashes kwargs then plt.lift (Raise TypeError)
                   else sns.heatmap (np.T mat) kw ax) s
                  = (s1, new_axes ax s ++ plt.Heatmap h (np.T mat) kw :: rest,
                     match render (np.T mat) kw with
                     | Ok _ => Ok h
                     | Raise e => Raise e
                     end))
    by (rewrite Hkw; exact Hrun).
  destruct (render (np.T mat) kw) as [drawn|e]; subst rest.
  - destruct (labelling_run h s1) as (s2 & Hlab).
    assert (Hout : out = (s2,
                          [] ++ (new_axes ax s
                                 ++ plt.Heatmap h (np.T mat) kw
                                 :: (if new_colorbar drawn
                                     then [plt.Colorbar (colorbar_axes ax s) h]
                                     else []))
                             ++ labelling,
                          Ok h)).
    { unfold confusion_matrix_visual.
      eapply bind_run; [unfold plt.lift; rewrite Hmat; reflexivity|].
      eapply bind_run; [exact Hcall | exact Hlab]. }
    rewrite Hout. split; [reflexivity|]. cbn [plt.events fst snd app].
    rewrite <- app_assoc. reflexivity.
  - assert (Hout : out = (s1,
                          [] ++ new_axes ax s ++ [plt.Heatmap h (np.T mat) kw],
                          Raise e)).
    { unfold confusion_matrix_visual.
      eapply bind_run; [unfold plt.lift; rewrite Hmat; reflexivity|].
      eapply bind_raise. exact Hcall. }
    rewrite Hout. split; reflexivity.
Qed.

Lemma heatmaps_new_axes (rest : list plt.Event) :
  heatmaps (new_axes ax s ++ rest) = heatmaps rest.
Proof. unfold new_axes. destruct ax, (plt.current s); reflexivity. Qed.

(** C4. The heat map shows the transpose of the library's confusion
    matrix: its cell in row [i], column [j] is the matrix entry in row
    [j], column [i] (and there is a cell exactly where there is an
    entry). *)
Theorem confusion_matrix_visual_transposed (mat : list (list Z)) (c : nat) :
  confusion_matrix y_true y_pred = Ok mat ->
  Forall (fun row => List.length row = c) mat ->
  clashes kwargs = false ->
  exists data kw,
    heatmaps (plt.events out) = [(h, data, kw)] /\
    forall i j, cell data i j = cell mat j i.
Proof.
  intros Hmat Hrect Hkw.
  pose proof (confusion_matrix_visual_run Hmat Hkw) as Hrun.
  exists (np.T mat), kw. split.
  - destruct (render (np.T mat) kw) as [drawn|e]; destruct Hrun as [_ ->];
      rewrite heatmaps_new_axes; [destruct (new_colorbar drawn)|]; reflexivity.
  - apply transpose_cell with (c := c); assumption.
Qed.

Lemma ticks_new_axes (rest : list plt.Event) (a : plt.axes) :
  xticks a (new_axes ax s ++ rest) = xticks a rest /\
  yticks a (new_axes ax s ++ rest) = yticks a rest /\
  xticklabels a (new_axes ax s ++ rest) = xticklabels a rest /\
  yticklabels a (new_axes ax s ++ rest) = yticklabels a rest.
Proof. unfold new_axes. destruct ax, (plt.current s); repeat split. Qed.

(** C8, as the code has it.  The display names are never indexed by
    label: tick positions and tick labels both come from [class_labels],
    so whatever the number of unique labels, once the confusion matrix is
    computed and the heat map call has returned, the call returns the
    Axes, having set one tick per display name, at 0.5, 1.5, ..., on each
    axis, labelled with the names in order. *)
Theorem confusion_matrix_visual_ticks (mat : list (list Z)) (drawn : rendering) :
  confusion_matrix y_true y_pred = Ok mat ->
  clashes kwargs = false ->
  render (np.T mat) kw = Ok drawn ->
  plt.outcome out = Ok h /\
  xticks h (plt.events out) = [tick_marks] /\
  yticks h (plt.events out) = [tick_marks] /\
  xticklabels h (plt.events out) = [class_labels] /\
  yticklabels h (plt.events out) = [class_labels] /\
  List.length tick_marks = List.length class_labels /\
  forall k, (k < List.length class_labels)%nat ->
    nth k tick_marks nan = PrimFloat.add (np.float64 (Z.of_nat k)) 0.5%float.
Proof.
  intros Hmat Hkw Hdrawn.
  pose proof (confusion_matrix_visual_run Hmat Hkw) as Hrun.
  rewrite Hdrawn in Hrun. destruct Hrun as [Hout Hev].
  rewrite Hev. split; [exact Hout|].
  destruct (ticks_new_axes
              (plt.Heatmap h (np.T mat) kw
                 :: (if new_colorbar drawn
                     then [plt.Colorbar (colorbar_axes ax s) h] else [])
                 ++ labelling) h) as (-> & -> & -> & ->).
  repeat split;
    try (destruct (new_colorbar drawn); simpl; rewrite Nat.eqb_refl; reflexivity).
  - apply tick_marks_length.
  - intros k Hk. unfold np.add_scalar, np.arange.
    rewrite map_map.
    rewrite (nth_indep _ nan (PrimFloat.add (np.float64 (Z.of_nat 0)) 0.5%float))
      by (rewrite length_map, length_seq; exact Hk).
    rewrite (map_nth (fun i => PrimFloat.add (np.float64 (Z.of_nat i)) 0.5%float)).
    rewrite seq_nth by exact Hk. reflexivity.
Qed.

(** C9, as the code has it.  When the library's confusion matrix is
    [N x N] for the [N] unique labels of the input and the heat map call
    returns, the heat map is asked to annotate ([annot=True]) data of
    exactly [N * N] cells, and where seaborn annotates every cell of its
    data (none is masked) it has [N * N] annotated cells; the ticks set
    on each axis are one per display name, so they number [N] exactly
    when as many names are given as there are labels. *)
Theorem confusion_matrix_visual_counts (mat : list (list Z)) (drawn : rendering) :
  let N := List.length (unique_labels y_true y_pred) in
  confusion_matrix y_true y_pred = Ok mat ->
  shape mat N N ->
  clashes kwargs = false ->
  render (np.T mat) kw = Ok drawn ->
  exists data ticks,
    heatmaps (plt.events out) = [(h, data, kw)] /\
    List.length (all_cells data) = (N * N)%nat /\
    (annotated drawn = all_cells data ->
     List.length (annotated drawn) = (N * N)%nat) /\
    xticks h (plt.events out) = [ticks] /\
    yticks h (plt.events out) = [ticks] /\
    List.length ticks = List.length class_labels /\
    (List.length class_labels = N -> List.length ticks = N).
Proof.
  intros N Hmat Hshape Hkw Hdrawn.
  pose proof (confusion_matrix_visual_run Hmat Hkw) as Hrun.
  rewrite Hdrawn in Hrun. destruct Hrun as [_ Hev].
  assert (Hcells : List.length (all_cells (np.T mat)) = (N * N)%nat).
  { rewrite all_cells_length. apply transpose_size. exact Hshape. }
  exists (np.T mat), tick_marks. rewrite Hev.
  destruct (ticks_new_axes
              (plt.Heatmap h (np.T mat) kw
                 :: (if new_colorbar drawn
                     then [plt.Colorbar (colorbar_axes ax s) h] else [])
                 ++ labelling) h) as (-> & -> & _ & _).
  rewrite heatmaps_new_axes.
  split; [destruct (new_colorbar drawn); reflexivity|].
  split; [exact Hcells|].
  split; [intros ->; exact Hcells|].
  split; [destruct (new_colorbar drawn); simpl; rewrite Nat.eqb_refl; reflexivity|].
  split; [destruct (new_colorbar drawn); simpl; rewrite Nat.eqb_refl; reflexivity|].
  split; [apply tick_marks_length|].
  intros <-. apply tick_marks_length.
Qed.

End ConfusionMatrixVisual.

(** ** Precision-recall baseline *)

Lemma sum_count (y : list Z) (c : Z) :
  py.sum (np.eq y c) = Z.of_nat (count_occ Z.eq_dec y c).
Proof.
  unfold py.sum, np.eq.
  assert (H : forall acc,
             fold_left (fun a (b : bool) => a + Z.b2z b) (map (fun x => x =? c) y) acc
             = acc + Z.of_nat (count_occ Z.eq_dec y c)).
  { induction y as [|x y IH]; intros acc; simpl; [lia|].
    rewrite IH. destruct (Z.eq_dec x c) as [->|Hne].
    - rewrite Z.eqb_refl; simpl Z.b2z. lia.
    - apply Z.eqb_neq in Hne. rewrite Hne; simpl Z.b2z. lia. }
  apply H.
Qed.

Lemma truediv_nonempty (a : Z) (n : nat) :
  n <> 0%nat ->
  py.truediv a n = Ok (PrimFloat.div (np.float64 a) (np.float64 (Z.of_nat n))).
Proof.
  intros Hn. unfold py.truediv.
  destruct (Nat.eqb_spec n 0); [contradiction | reflexivity].
Qed.

Section PrCurve.

Context {M : Metrics} {F : Format}.

(** C5. Whenever [plot_pr_curve] gets as far as drawing (the library
    computed the precision-recall curve, and there is at least one
    sample), it draws exactly one horizontal line, at the prevalence of
    the positive class: the number of entries of [y_test] equal to
    [positive_class] divided, in float64, by the number of entries. *)
Theorem plot_pr_curve_baseline (y_test : list Z) (preds : list float)
    (positive_class : Z) (s : plt.pyplot) (precision recall thresholds : list float) :
  precision_recall_curve y_test preds = Ok (precision, recall, thresholds) ->
  y_test <> [] ->
  hlines (plt.events (plot_pr_curve y_test preds positive_class s))
  = [(plt.next_axes s,
      PrimFloat.div (np.float64 (Z.of_nat (count_occ Z.eq_dec y_test positive_class)))
                    (np.float64 (Z.of_nat (List.length y_test))))].
Proof.
  intros Hcurve Hne.
  assert (Hlen : List.length y_test <> 0%nat)
    by (destruct y_test; [congruence | discriminate]).
  destruct s as [n cur xl yl].
  unfold plot_pr_curve. run.
  rewrite Hcurve, (truediv_nonempty _ Hlen), sum_count. run.
  destruct (average_precision_score y_test preds positive_class) as [ap|e];
    [destruct (auc recall precision) as [area|e]|]; reflexivity.
Qed.

End PrCurve.
(** ** Multi-class ROC plot *)

Lemma where_binarized (y_test : list Z) (c : Z) :
  np.where_ (np.eq y_test c) 1 0 = binarized y_test c.
Proof.
  unfold np.where_, np.eq, binarized. rewrite map_map.
  apply map_ext. intros v.
  destruct (Z.eqb_spec v c), (Z.eq_dec v c); congruence.
Qed.

Lemma is_column_getitem (preds : np.table) (i : nat) (column : list float) :
  is_column preds i column -> np.getitem_col preds i = Ok column.
Proof.
  intros [Hi Hall]. unfold np.getitem_col.
  destruct (Nat.ltb_spec i (np.width preds)); [|lia].
  f_equal. induction Hall as [|row v rows column Hv _ IH]; [reflexivity|].
  simpl. rewrite IH. f_equal. apply nth_error_nth. exact Hv.
Qed.

Lemma enumerate_from_nth_error {A} (l : list A) :
  forall k i, nth_error (combine (seq k (List.length l)) l) i
              = option_map (fun x => ((k + i)%nat, x)) (nth_error l i).
Proof.
  induction l as [|y l IH]; intros k i; simpl.
  - destruct i; reflexivity.
  - destruct i as [|i]; simpl; [rewrite Nat.add_0_r; reflexivity|].
    rewrite IH, Nat.add_succ_r. reflexivity.
Qed.

Lemma enumerate_nth_error {A} (l : list A) (i : nat) :
  nth_error (py.enumerate l) i = option_map (fun x => (i, x)) (nth_error l i).
Proof. apply (enumerate_from_nth_error l 0 i). Qed.

Lemma Forall2_nth_error_left {A B} (P : A -> B -> Prop) (l : list A) (l' : list B) :
  Forall2 P l l' ->
  forall i x, nth_error l i = Some x -> exists y, nth_error l' i = Some y /\ P x y.
Proof.
  induction 1 as [|a b l l' Hab _ IH]; intros i x Hx; [destruct i; discriminate|].
  destruct i as [|i]; simpl in *.
  - injection Hx as <-. exists b. split; [reflexivity | exact Hab].
  - apply IH. exact Hx.
Qed.

Section MultiClassRoc.

Context {M : Metrics} {F : Format}.

Variables (y_test : list Z) (preds : np.table).

Lemma axes_or_new_run (ax : option plt.axes) (s : plt.pyplot) :
  exists s1,
    axes_or_new ax s
    = (s1,
       match ax with
       | Some _ => []
       | None => [plt.Subplots 1 1 None [plt.next_axes s]]
       end,
       Ok (roc_axes ax s)).
Proof.
  destruct s as [n st xl yl]. destruct ax as [a|]; unfold axes_or_new.
  - eexists. reflexivity.
  - eexists. reflexivity.
Qed.

(** One turn of the loop, when the library answers for the class. *)
Lemma plot_class_roc_run (h : plt.axes) (i : nat) (c : Z)
    (fpr tpr : list float) (area : float) (s : plt.pyplot) :
  roc_of_class y_test preds i c fpr tpr area ->
  plot_class_roc y_test preds h (i, c) s
  = (s,
     [plt.Plot h fpr tpr
        {| plt.color := None; plt.lw := 2; plt.linestyle := None;
           plt.label := "class " ++ str c ++ "; AUC: " ++ format area ".2" |}],
     Ok tt).
Proof.
  intros (column & thresholds & Hcol & Hroc & Hauc).
  unfold plot_class_roc. run.
  rewrite (is_column_getitem Hcol), where_binarized. run. rewrite Hroc. run.
  rewrite Hauc. reflexivity.
Qed.

Lemma roc_loop_run (h : plt.axes) (l : list (nat * Z)) (s : plt.pyplot) :
  (forall ic, In ic l ->
     exists fpr tpr area, roc_of_class y_test preds (fst ic) (snd ic) fpr tpr area) ->
  exists curves,
    plt.for_each l (plot_class_roc y_test preds h) s = (s, curves, Ok tt) /\
    Forall2 (fun ic e => class_curve y_test preds h (fst ic) (snd ic) e) l curves.
Proof.
  induction l as [|[i c] l IH]; intros Hlib.
  - exists []. repeat split. constructor.
  - destruct (Hlib (i, c) (or_introl eq_refl)) as (fpr & tpr & area & Hc).
    destruct IH as (curves & Hrun & Hall).
    { intros ic Hic. apply Hlib. right; assumption. }
    simpl in Hc.
    exists ([plt.Plot h fpr tpr
               {| plt.color := None; plt.lw := 2; plt.linestyle := None;
                  plt.label := "class " ++ str c ++ "; AUC: " ++ format area ".2" |}]
            ++ curves).
    split.
    + eapply for_each_cons_run; [|exact Hrun].
      apply plot_class_roc_run. exact Hc.
    + constructor; [|exact Hall]. exists fpr, tpr, area. split; auto.
Qed.

Lemma class_curves_plots (h : plt.axes) (l : list (nat * Z)) (curves : list plt.Event) :
  Forall2 (fun ic e => class_curve y_test preds h (fst ic) (snd ic) e) l curves ->
  filter is_plot curves = curves /\
  filter is_grid curves = [] /\
  titles curves = [] /\
  Forall (fun e => targets e = [h]) curves.
Proof.
  induction 1 as [|ic e l curves (fpr & tpr & area & _ & ->) _ (IH1 & IH2 & IH3 & IH4)].
  - repeat split. constructor.
  - simpl. rewrite IH1. repeat split; try assumption.
    constructor; [reflexivity | assumption].
Qed.

Lemma class_curves_enumerate (h : plt.axes) (classes : list Z)
    (curves : list plt.Event) :
  Forall2 (fun ic e => class_curve y_test preds h (fst ic) (snd ic) e)
          (py.enumerate classes) curves ->
  class_curves y_test preds h classes curves.
Proof.
  intros Hall. split.
  - rewrite <- (Forall2_length Hall). apply enumerate_length.
  - intros i c Hc.
    assert (Hic : nth_error (py.enumerate classes) i = Some (i, c))
      by (rewrite enumerate_nth_error, Hc; reflexivity).
    destruct (Forall2_nth_error_left Hall i Hic) as (e & He & Hcurve).
    exists e. split; assumption.
Qed.

(** C7. [plot_multi_class_roc] goes through the distinct labels of
    [y_test] in strictly ascending order.  When the library answers for
    every class, the call returns the Axes and the lines it has drawn are
    the diagonal baseline, once, followed by one curve per class in that
    order: for the [i]-th class [c], the ROC curve of the labels
    binarized against [c] (1 where equal, 0 elsewhere) and column [i] of
    the probability table, labelled with [c] and the area under it. *)
Theorem plot_multi_class_roc_curves (ax : option plt.axes) (s : plt.pyplot) :
  let class_labels := np.sort (pd.unique y_test) in
  let h := roc_axes ax s in
  let out := plot_multi_class_roc y_test preds ax s in
  (forall i c, nth_error class_labels i = Some c ->
     exists fpr tpr area, roc_of_class y_test preds i c fpr tpr area) ->
  StronglySorted Z.lt class_labels /\
  (forall c, In c class_labels <-> In c y_test) /\
  plt.outcome out = Ok h /\
  exists curves,
    filter is_plot (plt.events out)
    = plt.Plot h [0; 1]%float [0; 1]%float
        {| plt.color := Some "navy"; plt.lw := 2;
           plt.linestyle := Some "--"; plt.label := "baseline" |}
      :: curves /\
    class_curves y_test preds h class_labels curves.
Proof.
  intros class_labels h out Hlib.
  destruct (class_labels_spec y_test) as [Hsorted Hsame].
  split; [exact Hsorted|]. split; [exact Hsame|].
  destruct (axes_or_new_run ax s) as (s1 & Hnew).
  destruct (roc_loop_run h (py.enumerate class_labels) s1) as (curves & Hloop & Hall).
  { intros [i c] Hic. apply Hlib. apply enumerate_In. exact Hic. }
  destruct (class_curves_plots Hall) as (Hplots & _).
  assert (Hout : out = (s1,
                        match ax with
                        | Some _ => []
                        | None => [plt.Subplots 1 1 None [plt.next_axes s]]
                        end
                        ++ [plt.Plot h diagonal diagonal baseline_kw]
                        ++ curves
                        ++ [plt.Legend h None;
                            plt.SetTitle h "Multi-class ROC curve";
                            plt.SetXLabel h "False Positive Rate (FPR)";
                            plt.SetYLabel h "True Positive Rate (TPR)"],
                        Ok h)).
  { unfold out, plot_multi_class_roc.
    eapply bind_run; [exact Hnew|].
    eapply bind_run; [reflexivity|].
    eapply bind_run; [exact Hloop|].
    reflexivity. }
  rewrite Hout. split; [reflexivity|].
  exists curves. split; [|apply class_curves_enumerate; exact Hall].
  cbn [plt.events fst snd].
  rewrite !filter_app, Hplots. destruct ax; simpl; rewrite app_nil_r; reflexivity.
Qed.

End MultiClassRoc.

(** ** Multi-class precision-recall grid *)

Lemma ceil_div_spec (a b : nat) :
  b <> 0%nat -> (a <= np.ceil_div a b * b < a + b)%nat.
Proof.
  intros Hb. unfold np.ceil_div.
  pose proof (Nat.div_mod_eq a b) as Hdiv.
  pose proof (Nat.mod_upper_bound a b Hb) as Hmod.
  destruct (Nat.eqb_spec (a mod b) 0); nia.
Qed.

Lemma concat_rows (first c n : nat) :
  List.concat (map (fun r => seq (first + r * c) c) (seq 0 n)) = seq first (n * c).
Proof.
  induction n as [|n IH]; [reflexivity|].
  rewrite seq_S, map_app, concat_app, IH. simpl.
  rewrite app_nil_r, (Nat.add_comm c), seq_app. reflexivity.
Qed.

Lemma flatten_three_columns (rows first : nat) :
  rows <> 0%nat ->
  plt.flatten (plt.squeeze rows 3 first) = Ok (seq first (rows * 3)).
Proof.
  intros Hrows. unfold plt.squeeze.
  replace (Nat.eqb 3 1) with false by reflexivity.
  rewrite andb_false_r, orb_false_r.
  destruct (Nat.eqb_spec rows 1) as [->|Hne]; cbn [plt.flatten]; [reflexivity|].
  f_equal. apply concat_rows.
Qed.

Lemma subplots_run (rows cols : nat) (figsize : option (Z * Z)) (s : plt.pyplot) :
  rows <> 0%nat -> cols <> 0%nat ->
  exists s1,
    plt.subplots rows cols figsize s
    = (s1, [plt.Subplots rows cols figsize (seq (plt.next_axes s) (rows * cols))],
       Ok (plt.squeeze rows cols (plt.next_axes s))).
Proof.
  intros Hr Hc. unfold plt.subplots.
  destruct (Nat.eqb_spec rows 0); [contradiction|].
  destruct (Nat.eqb_spec cols 0); [contradiction|].
  simpl. eexists. reflexivity.
Qed.

Section MultiClassPr.

Context {M : Metrics} {F : Format}.

Variables (y_test : list Z) (preds : np.table).

(** The deleting loop removes the cells at the positions it is given. *)
Lemma delete_loop_run (first n : nat) :
  forall m a s, (a + m <= n)%nat ->
    exists s1,
      plt.for_each (seq a m) (delete_cell (seq first n)) s
      = (s1, map plt.DelAxes (seq (first + a) m), Ok tt).
Proof.
  induction m as [|m IH]; intros a s Ha; [eexists; reflexivity|].
  change (seq a (S m)) with (a :: seq (S a) m).
  change (seq (first + a) (S m)) with ((first + a)%nat :: seq (S (first + a)%nat) m).
  change (map plt.DelAxes ((first + a)%nat :: seq (S (first + a)%nat) m))
    with ([plt.DelAxes (first + a)%nat] ++ map plt.DelAxes (seq (S (first + a)%nat) m)).
  assert (Hcell : exists s0,
             delete_cell (seq first n) a s = (s0, [plt.DelAxes (first + a)%nat], Ok tt)).
  { unfold delete_cell, np.getitem. run.
    rewrite nth_error_seq. destruct (Nat.ltb_spec a n); [|lia].
    eexists. reflexivity. }
  destruct Hcell as (s0 & Hcell).
  destruct (IH (S a) s0) as (s1 & Hrest); [lia|].
  exists s1. eapply for_each_cons_run; [exact Hcell|].
  rewrite Hrest, Nat.add_succ_r. reflexivity.
Qed.

Lemma delete_unused_run (first n K : nat) (s : plt.pyplot) :
  exists s1,
    (if Nat.ltb K (List.length (seq first n))
     then plt.for_each (py.range K (List.length (seq first n)))
                       (delete_cell (seq first n))
     else plt.ret tt) s
    = (s1, map plt.DelAxes (skipn K (seq first n)), Ok tt).
Proof.
  rewrite length_seq, skipn_seq.
  destruct (Nat.ltb_spec K n).
  - unfold py.range. apply delete_loop_run. lia.
  - replace (n - K)%nat with 0%nat by lia. eexists. reflexivity.
Qed.

(** One turn of the plotting loop records no call that creates or
    deletes a cell, however far it gets. *)
Lemma plot_class_pr_no_grid (axes : list plt.axes) (ic : nat * Z) (s : plt.pyplot) :
  filter is_grid (plt.events (plot_class_pr y_test preds axes ic s)) = [].
Proof.
  destruct ic as [i c]. unfold plot_class_pr. run.
  destruct (np.getitem axes i) as [cell|e]; [|reflexivity].
  destruct (py.truediv _ _) as [prevalence|e]; [|reflexivity].
  destruct (np.getitem_col preds i) as [column|e]; [|reflexivity].
  destruct (precision_recall_curve _ column) as [[[precision recall] thresholds]|e];
    [|reflexivity].
  destruct (auc recall precision) as [area|e]; [|reflexivity].
  destruct (average_precision_score _ column 1) as [ap|e]; reflexivity.
Qed.

(** One turn of the plotting loop, when the cell exists, there is a
    sample, and the library answers for the class. *)
Lemma plot_class_pr_ok (axes : list plt.axes) (i : nat) (c : Z) (s : plt.pyplot)
    (precision recall : list float) (area ap : float) :
  (i < List.length axes)%nat ->
  y_test <> [] ->
  pr_of_class y_test preds i c precision recall area ap ->
  exists evs, plot_class_pr y_test preds axes (i, c) s = (s, evs, Ok tt).
Proof.
  intros Hi Hne (column & thresholds & Hcol & Hcurve & Hauc & Hap).
  assert (Hlen : List.length y_test <> 0%nat)
    by (destruct y_test; [congruence | discriminate]).
  destruct (nth_error axes i) as [cell|] eqn:Hcell;
    [|apply nth_error_None in Hcell; lia].
  unfold plot_class_pr, np.getitem. run.
  rewrite Hcell, (truediv_nonempty _ Hlen), Hcol. run.
  rewrite Hcurve. run. rewrite Hauc, Hap. eexists. reflexivity.
Qed.

Lemma pr_loop_ok (axes : list plt.axes) (l : list (nat * Z)) (s : plt.pyplot) :
  y_test <> [] ->
  (forall ic, In ic l ->
     (fst ic < List.length axes)%nat /\
     exists precision recall area ap,
       pr_of_class y_test preds (fst ic) (snd ic) precision recall area ap) ->
  exists evs, plt.for_each l (plot_class_pr y_test preds axes) s = (s, evs, Ok tt).
Proof.
  intros Hne. induction l as [|[i c] l IH]; intros Hlib.
  - exists []. reflexivity.
  - destruct (Hlib (i, c) (or_introl eq_refl))
      as (Hi & precision & recall & area & ap & Hc).
    simpl in Hi, Hc.
    destruct (plot_class_pr_ok axes s Hi Hne Hc) as (ev1 & Hrun1).
    destruct IH as (ev2 & Hrun2).
    { intros ic Hic. apply Hlib. right; assumption. }
    exists (ev1 ++ ev2). eapply for_each_cons_run; eassumption.
Qed.

(** C6. For an input with [K >= 1] distinct class labels,
    [plot_multi_class_pr_curve] creates one grid of [ceil(K/3)] rows of 3
    columns, [ceil(K/3) * 3] cells, then deletes the cells after the
    [K]-th, [ceil(K/3) * 3 - K] of them, and creates or deletes nothing
    else.  What it returns is the flattened sequence of all the cells
    created, the deleted ones included; it does return it when the
    library answers for every class. *)
Theorem plot_multi_class_pr_curve_grid (s : plt.pyplot) :
  let class_labels := np.sort (pd.unique y_test) in
  let K := List.length class_labels in
  let rows := np.ceil_div K 3 in
  let cells := seq (plt.next_axes s) (rows * 3) in
  let out := plot_multi_class_pr_curve y_test preds s in
  y_test <> [] ->
  (StronglySorted Z.lt class_labels /\
   forall c, In c class_labels <-> In c y_test) /\
  (K <= rows * 3 < K + 3)%nat /\
  filter is_grid (plt.events out)
  = plt.Subplots rows 3 (Some (15, Z.of_nat rows * 5)) cells
    :: map plt.DelAxes (skipn K cells) /\
  List.length cells = (rows * 3)%nat /\
  List.length (skipn K cells) = (rows * 3 - K)%nat /\
  (forall r, plt.outcome out = Ok r -> r = cells) /\
  ((forall i c, nth_error class_labels i = Some c ->
      exists precision recall area ap,
        pr_of_class y_test preds i c precision recall area ap) ->
   plt.outcome out = Ok cells).
Proof.
  intros class_labels K rows cells out Hne.
  pose proof (class_labels_spec y_test) as Hclasses.
  fold class_labels in Hclasses.
  assert (HK : (K <= rows * 3 < K + 3)%nat) by (apply ceil_div_spec; lia).
  assert (Hpos : K <> 0%nat).
  { destruct y_test as [|c0 y0] eqn:Hy; [congruence|].
    assert (Hin : In c0 class_labels) by (apply Hclasses; left; reflexivity).
    subst K. destruct class_labels; [contradiction | discriminate]. }
  assert (Hrows : rows <> 0%nat) by lia.
  destruct (@subplots_run rows 3 (Some (15, Z.of_nat rows * 5)) s Hrows)
    as (s1 & Hgrid); [discriminate|].
  fold cells in Hgrid.
  pose proof (flatten_three_columns (plt.next_axes s) Hrows) as Hflat.
  fold cells in Hflat.
  destruct (delete_unused_run (plt.next_axes s) (rows * 3) K s1) as (s1' & Hdel).
  fold cells in Hdel.
  destruct (plt.for_each (py.enumerate class_labels)
              (plot_class_pr y_test preds cells) s1') as [[s2 evs] r] eqn:Hloop.
  assert (Hquiet : filter is_grid evs = []).
  { pose proof (for_each_filter is_grid
                  (plot_class_pr y_test preds cells)
                  (plot_class_pr_no_grid cells)
                  (py.enumerate class_labels) s1') as H.
    rewrite Hloop in H. exact H. }
  assert (Hout : out = (s2,
                        [plt.Subplots rows 3 (Some (15, Z.of_nat rows * 5)) cells]
                          ++ [] ++ map plt.DelAxes (skipn K cells) ++ evs ++
                          match r with Ok _ => [] | Raise _ => [] end,
                        match r with Ok _ => Ok cells | Raise e => Raise e end)).
  { unfold out, plot_multi_class_pr_curve.
    fold class_labels. fold K. fold rows.
    eapply bind_run; [exact Hgrid|].
    eapply bind_run; [unfold plt.lift; rewrite Hflat; reflexivity|].
    eapply bind_run; [exact Hdel|].
    destruct r as [[]|e].
    - eapply bind_run; [exact Hloop | reflexivity].
    - rewrite app_nil_r. eapply bind_raise. exact Hloop. }
  assert (Hlen : List.length cells = (rows * 3)%nat) by apply length_seq.
  split; [exact Hclasses|]. split; [exact HK|]. split; [|split; [|split; [|split]]].
  - assert (Hdels : forall l, filter is_grid (map plt.DelAxes l) = map plt.DelAxes l).
    { induction l as [|x l IH]; simpl; [|rewrite IH]; reflexivity. }
    rewrite Hout. cbn [plt.events fst snd].
    rewrite !filter_app, Hquiet, Hdels.
    destruct r; simpl; rewrite app_nil_r; reflexivity.
  - exact Hlen.
  - rewrite length_skipn, Hlen. reflexivity.
  - intros r0. rewrite Hout. cbn [plt.outcome snd].
    destruct r; [|discriminate]. intros H; injection H as <-. reflexivity.
  - intros Hlib.
    destruct (pr_loop_ok cells (py.enumerate class_labels) s1' Hne) as (evs' & Hok).
    { intros [i c] Hic. apply enumerate_In in Hic. simpl. split.
      - assert (i < K)%nat by (apply nth_error_Some; fold class_labels; congruence).
        unfold cells in *. rewrite length_seq. lia.
      - apply Hlib. exact Hic. }
    rewrite Hok in Hloop. injection Hloop as _ _ <-.
    rewrite Hout. reflexivity.
Qed.

End MultiClassPr.

(** ** The theorems at work on the sample library *)

(** The selection on the sample curve, for the bounds FPR [<= 0] and TPR
    [>= 1]: the one point with FPR 0 and TPR 1. *)
Example find_threshold_sample :
  find_threshold (M := Sample.metrics) [1; 0; 1; 0] [0.9; 0.2; 0.6; 0.4]%float 0 1
  = Ok [0.6%float].
Proof. reflexivity. Qed.

Lemma find_threshold_exact_witness :
  exists kept : list nat,
    find_threshold (M := Sample.metrics) [1; 0; 1; 0] [0.9; 0.2; 0.6; 0.4]%float 0 1
    = Ok (map (fun i => nth i [infinity; 0.9; 0.6; 0.2]%float nan) kept) /\
    StronglySorted lt kept /\
    (forall i, In i kept ->
       (i < 4)%nat /\
       PrimFloat.leb (nth i [0; 0; 0; 1]%float nan) 0 = true /\
       PrimFloat.leb 1 (nth i [0; 0.5; 1; 1]%float nan) = true) /\
    (forall i, (i < 4)%nat -> ~ In i kept ->
       PrimFloat.leb (nth i [0; 0; 0; 1]%float nan) 0 = false \/
       PrimFloat.leb 1 (nth i [0; 0.5; 1; 1]%float nan) = false).
Proof.
  exact (@find_threshold_exact Sample.metrics
           [1; 0; 1; 0] [0.9; 0.2; 0.6; 0.4]%float 0%float 1%float
           [0; 0; 0; 1]%float [0; 0.5; 1; 1]%float [infinity; 0.9; 0.6; 0.2]%float
           eq_refl eq_refl eq_refl).
Defined.

Lemma find_threshold_on_grid_witness :
  exists fpr tpr thresholds,
    roc_curve (Metrics := Sample.metrics) [1; 0; 1; 0] [0.9; 0.2; 0.6; 0.4]%float
    = Ok (fpr, tpr, thresholds) /\
    forall t, In t [0.6%float] -> In t thresholds.
Proof.
  exact (@find_threshold_on_grid Sample.metrics
           [1; 0; 1; 0] [0.9; 0.2; 0.6; 0.4]%float 0%float 1%float
           [0.6%float] eq_refl).
Defined.

Lemma find_threshold_none_witness :
  find_threshold (M := Sample.metrics)
    [1; 0; 1; 0] [0.9; 0.2; 0.6; 0.4]%float (-1)%float 1%float
  = Ok [].
Proof.
  apply (@find_threshold_none Sample.metrics
           [1; 0; 1; 0] [0.9; 0.2; 0.6; 0.4]%float (-1)%float 1%float
           [0; 0; 0; 1]%float [0; 0.5; 1; 1]%float [infinity; 0.9; 0.6; 0.2]%float
           eq_refl eq_refl eq_refl).
  intros i Hi [H1 _].
  destruct i as [|[|[|[|i]]]]; simpl in Hi; try lia; vm_compute in H1; discriminate.
Defined.

Lemma find_threshold_order_witness :
  exists fpr tpr thresholds,
    roc_curve (Metrics := Sample.metrics) [1; 0; 1; 0] [0.9; 0.2; 0.6; 0.4]%float
    = Ok (fpr, tpr, thresholds) /\
    Subsequence [0.6%float] thresholds.
Proof.
  exact (@find_threshold_order Sample.metrics
           [1; 0; 1; 0] [0.9; 0.2; 0.6; 0.4]%float 0%float 1%float
           [0.6%float] eq_refl).
Defined.

(** The example of the specification: true labels [0,1,1,0], predictions
    [0,1,0,0].  The library's matrix is [[2,0],[1,1]]; the heat map shows
    [[2,1],[0,1]]. *)
Example confusion_matrix_visual_sample :
  heatmaps (plt.events
    (confusion_matrix_visual (M := Sample.metrics) (R := Sample.seaborn)
       [0; 1; 1; 0] [0; 1; 0; 0] ["neg"; "pos"] None None [] Sample.fresh))
  = [(0%nat, [[2; 1]; [0; 1]],
      {| plt.square := true; plt.annot := true; plt.fmt := "d";
         plt.cbar := true; plt.cmap := "Blues"; plt.extra := [] |})].
Proof. reflexivity. Qed.

Lemma confusion_matrix_visual_transposed_witness :
  exists data kw,
    heatmaps (plt.events
      (confusion_matrix_visual (M := Sample.metrics) (R := Sample.seaborn)
         [0; 1; 1; 0] [0; 1; 0; 0] ["neg"; "pos"] None None [] Sample.fresh))
    = [(0%nat, data, kw)] /\
    forall i j, cell data i j = cell [[2; 0]; [1; 1]] j i.
Proof.
  apply (@confusion_matrix_visual_transposed Sample.metrics Sample.seaborn
           [0; 1; 1; 0] [0; 1; 0; 0] ["neg"; "pos"] None None [] Sample.fresh
           [[2; 0]; [1; 1]] 2%nat eq_refl).
  - repeat constructor.
  - reflexivity.
Defined.

(** The calls recorded on the example, in order: the Axes made for the
    heat map, the heat map, its colorbar on an Axes of its own, then the
    labelling. *)
Example confusion_matrix_visual_sample_calls :
  confusion_matrix_visual (M := Sample.metrics) (R := Sample.seaborn)
    [0; 1; 1; 0] [0; 1; 0; 0] ["neg"; "pos"] None None [] Sample.fresh
  = ({| plt.next_axes := 2;
        plt.stack := [1; 0]%nat;
        plt.xlocator := plt.update (fun _ => None) 0%nat 2%nat;
        plt.ylocator := plt.update (fun _ => None) 0%nat 2%nat |},
     [plt.AddSubplot 0%nat;
      plt.Heatmap 0%nat [[2; 1]; [0; 1]]
        {| plt.square := true; plt.annot := true; plt.fmt := "d";
           plt.cbar := true; plt.cmap := "Blues"; plt.extra := [] |};
      plt.Colorbar 1%nat 0%nat;
      plt.SetXLabel 0%nat "Actual";
      plt.SetYLabel 0%nat "Model Prediction";
      plt.SetXTicks 0%nat [0.5; 1.5]%float;
      plt.SetXTickLabels 0%nat ["neg"; "pos"];
      plt.SetYTicks 0%nat [0.5; 1.5]%float;
      plt.SetYTickLabels 0%nat ["neg"; "pos"] 0;
      plt.SetTitle 0%nat "Confusion Matrix"],
     Ok 0%nat).
Proof. reflexivity. Qed.

(** A keyword that seaborn does not take: the call raises where the heat
    map is drawn, with its Axes made, and sets no label, tick or title. *)
Example confusion_matrix_visual_sample_rejected :
  let out := confusion_matrix_visual (M := Sample.metrics) (R := Sample.seaborn)
               [0; 1; 1; 0] [0; 1; 0; 0] ["neg"; "pos"] None None
               [("foo", "1")] Sample.fresh in
  plt.outcome out = Raise AttributeError /\
  filter is_labelling (plt.events out) = [].
Proof. split; reflexivity. Qed.

(** Two unique labels, one display name: the call returns, with one tick
    on each axis. *)
Lemma confusion_matrix_visual_ticks_witness :
  let out := confusion_matrix_visual (M := Sample.metrics) (R := Sample.seaborn)
               [0; 1; 1; 0] [0; 1; 0; 0] ["neg"] None None [] Sample.fresh in
  plt.outcome out = Ok 0%nat /\
  xticks 0%nat (plt.events out) = [[0.5%float]] /\
  yticks 0%nat (plt.events out) = [[0.5%float]] /\
  xticklabels 0%nat (plt.events out) = [["neg"]] /\
  yticklabels 0%nat (plt.events out) = [["neg"]].
Proof.
  destruct (@confusion_matrix_visual_ticks Sample.metrics Sample.seaborn
              [0; 1; 1; 0] [0; 1; 0; 0] ["neg"] None None [] Sample.fresh
              [[2; 0]; [1; 1]]
              {| annotated := all_cells [[2; 1]; [0; 1]]; new_colorbar := true |}
              eq_refl eq_refl eq_refl)
    as (H1 & H2 & H3 & H4 & H5 & _).
  repeat split; assumption.
Defined.

Lemma confusion_matrix_visual_counts_witness :
  exists data ticks drawn,
    let out := confusion_matrix_visual (M := Sample.metrics) (R := Sample.seaborn)
                 [0; 1; 1; 0] [0; 1; 0; 0] ["neg"; "pos"] None None [] Sample.fresh in
    heatmaps (plt.events out)
    = [(0%nat, data,
        {| plt.square := true; plt.annot := true; plt.fmt := "d";
           plt.cbar := true; plt.cmap := "Blues"; plt.extra := [] |})] /\
    render (Seaborn := Sample.seaborn) [[2; 1]; [0; 1]]
      {| plt.square := true; plt.annot := true; plt.fmt := "d";
         plt.cbar := true; plt.cmap := "Blues"; plt.extra := [] |}
    = Ok drawn /\
    List.length (all_cells data) = 4%nat /\
    List.length (annotated drawn) = 4%nat /\
    xticks 0%nat (plt.events out) = [ticks] /\
    yticks 0%nat (plt.events out) = [ticks] /\
    List.length ticks = 2%nat.
Proof.
  destruct (@confusion_matrix_visual_counts Sample.metrics Sample.seaborn
              [0; 1; 1; 0] [0; 1; 0; 0] ["neg"; "pos"] None None [] Sample.fresh
              [[2; 0]; [1; 1]]
              {| annotated := all_cells [[2; 1]; [0; 1]]; new_colorbar := true |}
              eq_refl)
    as (data & ticks & H1 & H2 & H3 & H4 & H5 & H6 & _).
  - split; [reflexivity | repeat constructor].
  - reflexivity.
  - reflexivity.
  - exists data, ticks,
      {| annotated := all_cells [[2; 1]; [0; 1]]; new_colorbar := true |}.
    split; [exact H1|]. split; [reflexivity|]. split; [exact H2|].
    split; [reflexivity|]. split; [exact H4|]. split; [exact H5|]. exact H6.
Defined.

(** C8 as stated fails: with two unique labels and a single display name
    the call does not raise; it returns the Axes. *)
Lemma confusion_matrix_visual_no_index_error :
  let out := confusion_matrix_visual (M := Sample.metrics) (R := Sample.seaborn)
               [0; 1; 1; 0] [0; 1; 0; 0] ["neg"] None None [] Sample.fresh in
  Nat.lt (List.length ["neg"]) (List.length (unique_labels [0; 1; 1; 0] [0; 1; 0; 0])) /\
  plt.outcome out = Ok 0%nat /\
  plt.outcome out <> Raise IndexError.
Proof.
  split; [vm_compute; constructor|]. split; [reflexivity | discriminate].
Qed.

(** C9 as stated fails: with two unique labels and a single display name
    the heat map has four annotated cells and each axis gets one tick, so
    no [N] is both the side of the annotated square and the number of
    ticks. *)
Lemma confusion_matrix_visual_tick_count_differs :
  let out := confusion_matrix_visual (M := Sample.metrics) (R := Sample.seaborn)
               [0; 1; 1; 0] [0; 1; 0; 0] ["neg"] None None [] Sample.fresh in
  List.length (unique_labels [0; 1; 1; 0] [0; 1; 0; 0]) = 2%nat /\
  (exists kw drawn,
     heatmaps (plt.events out) = [(0%nat, [[2; 1]; [0; 1]], kw)] /\
     render (Seaborn := Sample.seaborn) [[2; 1]; [0; 1]] kw = Ok drawn /\
     List.length (annotated drawn) = 4%nat) /\
  xticks 0%nat (plt.events out) = [[0.5%float]] /\
  yticks 0%nat (plt.events out) = [[0.5%float]] /\
  ~ (forall ticks, In ticks (xticks 0%nat (plt.events out)) -> List.length ticks = 2%nat).
Proof.
  split; [reflexivity|].
  split; [eexists _, _; split; [reflexivity|]; split; reflexivity|].
  split; [reflexivity|]. split; [reflexivity|].
  intros H. specialize (H [0.5%float] (or_introl eq_refl)). discriminate.
Qed.

(** The example of the specification: two positives out of four. *)
Lemma plot_pr_curve_baseline_witness :
  hlines (plt.events
    (plot_pr_curve (M := Sample.metrics) (F := Sample.text)
       [1; 1; 0; 0] [0.9; 0.2; 0.6; 0.4]%float 1 Sample.fresh))
  = [(0%nat, 0.5%float)].
Proof.
  apply (@plot_pr_curve_baseline Sample.metrics Sample.text
           [1; 1; 0; 0] [0.9; 0.2; 0.6; 0.4]%float 1 Sample.fresh
           [0.5; 1; 1]%float [1; 0.5; 0]%float [0.25; 0.75]%float eq_refl).
  discriminate.
Defined.

(** Four classes on the library that shows what it is given: the
    baseline, then for the classes 0, 1, 2 and 5 the curve whose x values
    are the labels binarized against the class and whose y values are
    column 0, 1, 2 and 3 of the table. *)
Example plot_multi_class_roc_sample :
  filter is_plot
    (plt.events (plot_multi_class_roc (M := Sample.echo) (F := Sample.text)
                   Sample.labels Sample.table None Sample.fresh))
  = [plt.Plot 0%nat [0; 1]%float [0; 1]%float
       {| plt.color := Some "navy"; plt.lw := 2;
          plt.linestyle := Some "--"; plt.label := "baseline" |};
     plt.Plot 0%nat [0; 1; 0; 1; 0]%float [0.125; 0.5; 0.25; 0.75; 0.125]%float
       {| plt.color := None; plt.lw := 2; plt.linestyle := None;
          plt.label := "class 0; AUC: 1.0" |};
     plt.Plot 0%nat [0; 0; 1; 0; 0]%float [0.125; 0.25; 0.5; 0.125; 0.125]%float
       {| plt.color := None; plt.lw := 2; plt.linestyle := None;
          plt.label := "class 1; AUC: 1.0" |};
     plt.Plot 0%nat [1; 0; 0; 0; 0]%float [0.5; 0.125; 0.125; 0.125; 0.25]%float
       {| plt.color := None; plt.lw := 2; plt.linestyle := None;
          plt.label := "class 2; AUC: 1.0" |};
     plt.Plot 0%nat [0; 0; 0; 0; 1]%float [0.25; 0.125; 0.125; 0; 0.5]%float
       {| plt.color := None; plt.lw := 2; plt.linestyle := None;
          plt.label := "class 5; AUC: 1.0" |}].
Proof. reflexivity. Qed.

Lemma plot_multi_class_roc_curves_witness :
  let out := plot_multi_class_roc (M := Sample.echo) (F := Sample.text)
               Sample.labels Sample.table None Sample.fresh in
  plt.outcome out = Ok 0%nat /\
  exists curves,
    filter is_plot (plt.events out)
    = plt.Plot 0%nat [0; 1]%float [0; 1]%float
        {| plt.color := Some "navy"; plt.lw := 2;
           plt.linestyle := Some "--"; plt.label := "baseline" |}
      :: curves /\
    class_curves (M := Sample.echo) (F := Sample.text)
      Sample.labels Sample.table 0%nat [0; 1; 2; 5] curves.
Proof.
  destruct (@plot_multi_class_roc_curves Sample.echo Sample.text
              Sample.labels Sample.table None Sample.fresh)
    as (_ & _ & Hout & Hcurves).
  - intros i c H.
    destruct i as [|[|[|[|i]]]]; cbv in H;
      try (destruct i; discriminate);
      injection H as <-;
      eexists _, _, _, _, _;
      (split; [split; [cbv; lia | repeat constructor]|]);
      split; reflexivity.
  - split; [exact Hout | exact Hcurves].
Defined.

(** Four classes make a grid of two rows: six cells, the last two
    deleted, all six returned. *)
Lemma plot_multi_class_pr_curve_grid_witness :
  let out := plot_multi_class_pr_curve (M := Sample.metrics) (F := Sample.text)
               Sample.labels Sample.table Sample.fresh in
  filter is_grid (plt.events out)
  = [plt.Subplots 2 3 (Some (15, 10)) [0; 1; 2; 3; 4; 5]%nat;
     plt.DelAxes 4%nat; plt.DelAxes 5%nat] /\
  plt.outcome out = Ok [0; 1; 2; 3; 4; 5]%nat.
Proof.
  destruct (@plot_multi_class_pr_curve_grid Sample.metrics Sample.text
              Sample.labels Sample.table Sample.fresh)
    as (_ & _ & Hgrid & _ & _ & _ & Hret).
  - discriminate.
  - split; [exact Hgrid|]. apply Hret.
    intros i c H.
    destruct i as [|[|[|[|i]]]]; cbv in H;
      try (destruct i; discriminate);
      injection H as <-;
      eexists _, _, _, _, _, _; repeat split; reflexivity.
Defined.

(* ================================================================== *)
(** * Further properties of the module *)

(** ** Comparisons against NaN and the infinities *)

Lemma leb_nan_r (x : float) : PrimFloat.leb x nan = false.
Proof.
  rewrite leb_spec. unfold SFleb.
  replace (Prim2SF nan) with S754_nan by reflexivity.
  destruct (Prim2SF x); reflexivity.
Qed.

Lemma leb_nan_l (x : float) : PrimFloat.leb nan x = false.
Proof.
  rewrite leb_spec. unfold SFleb.
  replace (Prim2SF nan) with S754_nan by reflexivity.
  reflexivity.
Qed.

(** [x <= x] holds for every float but NaN. *)
Lemma leb_infinity (x : float) :
  PrimFloat.leb x x = true -> PrimFloat.leb x infinity = true.
Proof.
  rewrite !leb_spec. unfold SFleb.
  replace (Prim2SF infinity) with (S754_infinity false) by reflexivity.
  destruct (Prim2SF x) as [s|s| |s m e]; simpl;
    try discriminate; try reflexivity; destruct s; reflexivity.
Qed.

Lemma neg_infinity_leb (x : float) :
  PrimFloat.leb x x = true -> PrimFloat.leb neg_infinity x = true.
Proof.
  rewrite !leb_spec. unfold SFleb.
  replace (Prim2SF neg_infinity) with (S754_infinity true) by reflexivity.
  destruct (Prim2SF x) as [s|s| |s m e]; simpl;
    try discriminate; try reflexivity; destruct s; reflexivity.
Qed.

Lemma compress_all {A} (mask : list bool) (a : list A) :
  List.length mask = List.length a ->
  (forall i b, nth_error mask i = Some b -> b = true) ->
  np.compress mask a = a.
Proof.
  revert a; induction mask as [|b mask IH]; intros [|x a] Hlen Hall;
    simpl in *; try discriminate; auto.
  rewrite (Hall 0%nat b eq_refl). f_equal.
  apply IH; [lia|]. intros i b' Hi. apply (Hall (S i)). exact Hi.
Qed.

Section FindThresholdEdges.

Context {M : Metrics}.

Variables (y_test : list Z) (y_preds : list float).
Variables (fpr tpr thresholds : list float).

Hypothesis Hcurve : roc_curve y_test y_preds = Ok (fpr, tpr, thresholds).
Hypothesis Hfpr : List.length fpr = List.length thresholds.
Hypothesis Htpr : List.length tpr = List.length thresholds.

Lemma find_threshold_no_point (fpr_below tpr_above : float) :
(forall i, (i < List.length thresholds)%nat ->
   qualifies fpr_below tpr_above fpr tpr i = false) ->
find_threshold y_test y_preds fpr_below tpr_above = Ok [].
Proof.
intros Hnone.
rewrite (find_threshold_aligned y_test y_preds fpr_below tpr_above Hcurve Hfpr Htpr).
f_equal. apply compress_none. intros i b Hb.
assert (Hi : (i < List.length thresholds)%nat).
{ rewrite <- Hfpr, <- (mask_length fpr_below tpr_above fpr tpr) by congruence.
  apply nth_error_Some. congruence. }
rewrite mask_bit in Hb by congruence. injection Hb as <-.
apply Hnone. exact Hi.
Qed.

(** X1. A NaN bound selects nothing: with [fpr_below] or [tpr_above] NaN the
  result is the empty sequence, whatever the curve. *)
Theorem find_threshold_nan_bound (fpr_below tpr_above : float) :
fpr_below = nan \/ tpr_above = nan ->
find_threshold y_test y_preds fpr_below tpr_above = Ok [].
Proof.
intros Hnan. apply find_threshold_no_point. intros i _. unfold qualifies.
destruct Hnan as [-> | ->].
- rewrite leb_nan_r. reflexivity.
- rewrite leb_nan_l. apply andb_false_r.
Qed.

(** X2. A curve whose false-positive rates are all NaN, or whose
  true-positive rates are all NaN (rates left undefined by the library),
  yields the empty sequence for every pair of bounds. *)
Theorem find_threshold_nan_curve (fpr_below tpr_above : float) :
(forall i, (i < List.length thresholds)%nat -> nth i fpr nan = nan) \/
(forall i, (i < List.length thresholds)%nat -> nth i tpr nan = nan) ->
find_threshold y_test y_preds fpr_below tpr_above = Ok [].
Proof.
intros Hnan. apply find_threshold_no_point. intros i Hi. unfold qualifies.
destruct Hnan as [H | H]; rewrite (H i Hi).
- rewrite leb_nan_l. reflexivity.
- rewrite leb_nan_r. apply andb_false_r.
Qed.

(** X3. The vacuous bounds, FPR at most [+inf] and TPR at least [-inf], select
  the whole threshold sequence of a curve that has no NaN rate. *)
Theorem find_threshold_vacuous_bounds :
(forall i, (i < List.length thresholds)%nat ->
   PrimFloat.leb (nth i fpr nan) (nth i fpr nan) = true /\
   PrimFloat.leb (nth i tpr nan) (nth i tpr nan) = true) ->
find_threshold y_test y_preds infinity neg_infinity = Ok thresholds.
Proof.
intros Hnum.
rewrite (find_threshold_aligned y_test y_preds infinity neg_infinity Hcurve Hfpr Htpr).
f_equal. apply compress_all.
- rewrite mask_length; congruence.
- intros i b Hb.
  assert (Hi : (i < List.length thresholds)%nat).
  { rewrite <- Hfpr, <- (mask_length infinity neg_infinity fpr tpr) by congruence.
    apply nth_error_Some. congruence. }
  rewrite mask_bit in Hb by congruence. injection Hb as <-.
  destruct (Hnum i Hi) as [H1 H2]. unfold qualifies.
  rewrite (leb_infinity H1), (neg_infinity_leb H2). reflexivity.
Qed.

End FindThresholdEdges.

(** ** Binary ROC plot *)

Section PlotRoc.

Context {M : Metrics} {F : Format}.

Variables (y_test : list Z) (preds : list float).
Variables (ax : option plt.axes) (s : plt.pyplot).

Local Abbreviation out := (plot_roc y_test preds ax s).
Local Abbreviation h := (roc_axes ax s).


(** X5. The Axes is settled before the curve is computed: when [roc_curve]
  raises, the exception goes to the caller with a supplied Axes left
  untouched, but with no Axes supplied the new figure has already been
  made, and stays empty. *)
Theorem plot_roc_curve_failure (e : exn) :
roc_curve y_test preds = Raise e ->
plt.outcome out = Raise e /\
plt.events out
= match ax with
  | Some _ => []
  | None => [plt.Subplots 1 1 None [plt.next_axes s]]
  end.
Proof.
intros Hcurve. destruct s as [n cur xl yl].
destruct ax as [a|]; unfold plot_roc; run; rewrite Hcurve; split; reflexivity.
Qed.

End PlotRoc.

(** ** Confusion matrix heat map: failures, title, confinement *)

Section ConfusionMatrixVisualEdges.

Context {M : Metrics} {R : Seaborn}.

Variables (y_true y_pred : list Z) (class_labels : list string).
Variables (ax : option plt.axes) (title : option string).
Variables (kwargs : list (string * string)) (s : plt.pyplot).

Local Abbreviation out :=
(confusion_matrix_visual y_true y_pred class_labels ax title kwargs s).
Local Abbreviation h := (heatmap_axes ax s).
Local Abbreviation kw :=
{| plt.square := true; plt.annot := true; plt.fmt := "d";
   plt.cbar := true; plt.cmap := "Blues"; plt.extra := kwargs |}.

Lemma labelling_new_axes (rest : list plt.Event) :
filter is_labelling (new_axes ax s ++ rest) = filter is_labelling rest.
Proof. unfold new_axes. destruct ax, (plt.current s); reflexivity. Qed.

Lemma titles_new_axes (rest : list plt.Event) :
titles (new_axes ax s ++ rest) = titles rest.
Proof. unfold new_axes. destruct ax, (plt.current s); reflexivity. Qed.

(** X7. When [confusion_matrix_visual] raises, no axis label, tick, tick
  label or title has been set.  The exception is the library's, from
  the confusion matrix, or the TypeError of a repeated keyword, and then
  no call was recorded and pyplot is as it was; or else it is seaborn's,
  from the one heat map call.  Setting the ticks and their labels never
  raises. *)
Theorem confusion_matrix_visual_raises (e : exn) :
plt.outcome out = Raise e ->
filter is_labelling (plt.events out) = [] /\
match confusion_matrix y_true y_pred with
| Raise e' => e' = e /\ out = (s, [], Raise e)
| Ok mat =>
    if clashes kwargs then e = TypeError /\ out = (s, [], Raise e)
    else render (np.T mat) kw = Raise e /\
         heatmaps (plt.events out) = [(h, np.T mat, kw)]
end.
Proof.
destruct (confusion_matrix y_true y_pred) as [mat|e'] eqn:Hmat.
- destruct (clashes kwargs) eqn:Hkw.
  + assert (Hout : out = (s, [], Raise TypeError)).
    { unfold confusion_matrix_visual. run. rewrite Hmat, Hkw. reflexivity. }
    rewrite Hout. intros H; injection H as <-. repeat split.
  + pose proof (confusion_matrix_visual_run y_true y_pred class_labels ax title
                  kwargs s Hmat Hkw) as Hrun.
    destruct (render (np.T mat) kw) as [drawn|e0]; destruct Hrun as [Hres Hev].
    * rewrite Hres. discriminate.
    * rewrite Hres, Hev. intros H; injection H as <-.
      rewrite labelling_new_axes, heatmaps_new_axes. repeat split.
- assert (Hout : out = (s, [], Raise e')).
  { unfold confusion_matrix_visual. run. rewrite Hmat. reflexivity. }
  rewrite Hout. intros H; injection H as <-. repeat split.
Qed.


(** X9. Once the heat map call has returned, the title set is the
  caller's, unless it is absent or the empty string: then it is
  "Confusion Matrix". *)
Theorem confusion_matrix_visual_title (mat : list (list Z)) (drawn : rendering) :
confusion_matrix y_true y_pred = Ok mat ->
clashes kwargs = false ->
render (np.T mat) kw = Ok drawn ->
(title = None \/ title = Some "" ->
 titles (plt.events out) = [(h, "Confusion Matrix")]) /\
(forall t, title = Some t -> t <> "" ->
 titles (plt.events out) = [(h, t)]).
Proof.
intros Hmat Hkw Hdrawn.
pose proof (confusion_matrix_visual_run y_true y_pred class_labels ax title
              kwargs s Hmat Hkw) as Hrun.
rewrite Hdrawn in Hrun. destruct Hrun as [_ Hev].
rewrite Hev, titles_new_axes. split.
- intros [-> | ->]; destruct (new_colorbar drawn); reflexivity.
- intros t -> Hne.
  assert (Ht : py.or_default (Some t) "Confusion Matrix" = t).
  { unfold py.or_default. destruct (String.eqb_spec t ""); [contradiction | reflexivity]. }
  rewrite Ht. destruct (new_colorbar drawn); reflexivity.
Qed.

(** X10. Once the heat map call has returned, the call returns the Axes
  of the heat map: the caller's when one is supplied, else the current
  Axes of pyplot, made first when there is none.  Every call recorded
  acts on that Axes, but for its creation and for the colorbar, which
  seaborn puts on a new Axes of its own when it draws one; no other
  Axes is created, and none is deleted. *)
Theorem confusion_matrix_visual_confined (mat : list (list Z)) (drawn : rendering) :
confusion_matrix y_true y_pred = Ok mat ->
clashes kwargs = false ->
render (np.T mat) kw = Ok drawn ->
plt.outcome out = Ok h /\
(forall a, ax = Some a -> h = a) /\
(forall a, ax = None -> plt.current s = Some a -> h = a) /\
(ax = None -> plt.current s = None -> h = plt.next_axes s) /\
filter is_grid (plt.events out)
= match ax, plt.current s with
  | None, None => [plt.AddSubplot h]
  | _, _ => []
  end
  ++ (if new_colorbar drawn then [plt.Colorbar (colorbar_axes ax s) h] else []) /\
Forall (fun e => targets e = [h]) (filter (fun e => negb (is_grid e)) (plt.events out)) /\
(plt.next_axes s <= colorbar_axes ax s)%nat /\
(ax = None -> plt.current s = None -> colorbar_axes ax s <> h).
Proof.
intros Hmat Hkw Hdrawn.
pose proof (confusion_matrix_visual_run y_true y_pred class_labels ax title
              kwargs s Hmat Hkw) as Hrun.
rewrite Hdrawn in Hrun. destruct Hrun as [Hok Hev].
split; [exact Hok|].
split; [intros a ->; reflexivity|].
split; [intros a -> Hcur; simpl; rewrite Hcur; reflexivity|].
split; [intros -> Hcur; simpl; rewrite Hcur; reflexivity|].
rewrite Hev. unfold new_axes, colorbar_axes, heatmap_axes.
destruct ax as [a|]; [|destruct (plt.current s) as [a|]];
  destruct (new_colorbar drawn); cbn [filter is_grid negb app];
  (split; [reflexivity|]); (split; [repeat constructor|]);
  (split; [lia|]); intros; try discriminate; lia.
Qed.

End ConfusionMatrixVisualEdges.

(** ** Binary precision-recall plot *)

Section PlotPrCurve.

Context {M : Metrics} {F : Format}.

Variables (y_test : list Z) (preds : list float) (s : plt.pyplot).

(** The lines [plot_pr_curve] draws, however far it gets. *)
Lemma plot_pr_curve_lines (positive_class : Z) :
filter is_plot (plt.events (plot_pr_curve y_test preds positive_class s))
= match precision_recall_curve y_test preds, y_test with
  | Ok (precision, recall, _), _ :: _ =>
      [plt.Plot (plt.next_axes s) recall precision model_kw]
  | _, _ => []
  end.
Proof.
destruct s as [n cur xl yl]. unfold plot_pr_curve. run.
destruct (precision_recall_curve y_test preds) as [[[precision recall] thresholds]|e];
  [|destruct y_test; reflexivity].
run. destruct y_test as [|c0 y0] eqn:Hy; [reflexivity|].
rewrite truediv_nonempty by discriminate. run.
destruct (average_precision_score _ preds positive_class) as [ap|e];
  [destruct (auc recall precision) as [area|e]|]; reflexivity.
Qed.

(** X11. The curve drawn does not depend on [positive_class]: the library's
  curve is computed from the labels and scores alone, and
  [positive_class] reaches only the baseline and the average precision. *)
Theorem plot_pr_curve_ignores_positive_class (c1 c2 : Z) :
filter is_plot (plt.events (plot_pr_curve y_test preds c1 s))
= filter is_plot (plt.events (plot_pr_curve y_test preds c2 s)).
Proof. rewrite !plot_pr_curve_lines. reflexivity. Qed.

(** X12. On an empty label vector [plot_pr_curve] never returns and never
  draws: either the library refuses the input, or the prevalence is the
  quotient 0/0 and a ZeroDivisionError, raised once the figure has been
  made, which stays empty. *)
Theorem plot_pr_curve_empty (positive_class : Z) :
let out := plot_pr_curve [] preds positive_class s in
(exists e, plt.outcome out = Raise e) /\
(is_curve_ok (precision_recall_curve [] preds) = true ->
 plt.outcome out = Raise ZeroDivisionError) /\
filter is_plot (plt.events out) = [] /\
hlines (plt.events out) = [] /\
(is_curve_ok (precision_recall_curve [] preds) = true ->
 plt.events out = [plt.Subplots 1 1 None [plt.next_axes s]]).
Proof.
destruct s as [n cur xl yl]. unfold plot_pr_curve. run.
destruct (precision_recall_curve [] preds) as [[[precision recall] thresholds]|e];
  run; (split; [eexists; reflexivity|]);
  (split; [intros H; first [reflexivity | discriminate]|]);
  (split; [reflexivity|]); (split; [reflexivity|]);
  intros H; first [reflexivity | discriminate].
Qed.

(** X13. When every library call succeeds on a non-empty input,
  [plot_pr_curve] returns a new Axes of a new figure (it has no way to
  draw on an existing one), titled with the average precision and the
  area under (recall, precision), both axes limited to [-0.05, 1.05]. *)
Theorem plot_pr_curve_finish (positive_class : Z)
  (precision recall thresholds : list float) (ap area : float) :
precision_recall_curve y_test preds = Ok (precision, recall, thresholds) ->
y_test <> [] ->
average_precision_score y_test preds positive_class = Ok ap ->
auc recall precision = Ok area ->
let out := plot_pr_curve y_test preds positive_class s in
let h := plt.next_axes s in
plt.outcome out = Ok h /\
filter is_grid (plt.events out) = [plt.Subplots 1 1 None [h]] /\
titles (plt.events out)
= [(h, ("Precision-recall curve" ++ py.newline
        ++ " AP: " ++ format ap ".2" ++ " | AUC: " ++ format area ".2")%string)] /\
limits (plt.events out)
= [plt.SetXLim h (-0.05)%float 1.05%float; plt.SetYLim h (-0.05)%float 1.05%float] /\
Forall (fun e => targets e = [h]) (plt.events out).
Proof.
intros Hcurve Hne Hap Harea.
assert (Hlen : List.length y_test <> 0%nat)
  by (destruct y_test; [congruence | discriminate]).
destruct s as [n cur xl yl]. unfold plot_pr_curve. run.
rewrite Hcurve, (truediv_nonempty _ Hlen). run. rewrite Hap, Harea.
repeat split; repeat constructor.
Qed.

End PlotPrCurve.

(** ** The class order *)

Lemma sorted_same_elements (l l' : list Z) :
  StronglySorted Z.lt l -> StronglySorted Z.lt l' ->
  (forall c, In c l <-> In c l') -> l = l'.
Proof.
  intros Hl; revert l'. induction Hl as [|x l Hl IH Hx]; intros l' Hl' Hsame.
  - destruct l' as [|y l']; [reflexivity|].
    exfalso. apply (Hsame y). left; reflexivity.
  - destruct Hl' as [|y l' Hl' Hy].
    + exfalso. apply (Hsame x). left; reflexivity.
    + rewrite Forall_forall in Hx, Hy.
      assert (Hxy : x = y).
      { destruct (proj1 (Hsame x) (or_introl eq_refl)) as [E|Hin]; [auto|].
        destruct (proj2 (Hsame y) (or_introl eq_refl)) as [E|Hin']; [auto|].
        specialize (Hx y Hin'). specialize (Hy x Hin). lia. }
      subst y. f_equal. apply IH; [exact Hl'|].
      intros c. split; intros Hc.
      * destruct (proj1 (Hsame c) (or_intror Hc)) as [E|Hin]; [|exact Hin].
        specialize (Hx c Hc). lia.
      * destruct (proj2 (Hsame c) (or_intror Hc)) as [E|Hin]; [|exact Hin].
        specialize (Hy c Hc). lia.
Qed.

(** X14. The classes the multi-class plots loop over, and so the column each
    class is paired with, depend only on which labels occur: two label
    vectors with the same set of values give the same class sequence,
    whatever the order and the multiplicities of the samples. *)
Theorem class_labels_canonical (y y' : list Z) :
  (forall c, In c y <-> In c y') ->
  np.sort (pd.unique y) = np.sort (pd.unique y').
Proof.
  intros Hsame.
  destruct (class_labels_spec y) as [Hs Hin].
  destruct (class_labels_spec y') as [Hs' Hin'].
  apply sorted_same_elements; auto.
  intros c. rewrite Hin, Hin'. apply Hsame.
Qed.

(** ** Loops in the drawing monad *)

Lemma for_each_forall {A} (P : plt.Event -> Prop) (body : A -> plt.Draw unit)
    (l : list A) :
  (forall x s, In x l -> Forall P (plt.events (body x s))) ->
  forall s, Forall P (plt.events (plt.for_each l body s)).
Proof.
  induction l as [|x l IH]; intros Hbody s; [constructor|].
  cbn [plt.for_each].
  destruct (bind_events (body x) (fun _ => plt.for_each l body) s)
    as (rest & -> & Hrest).
  apply Forall_app. split; [apply Hbody; left; reflexivity|].
  destruct Hrest as [-> | (a & s1 & ->)]; [constructor|].
  apply IH. intros y s' Hy. apply Hbody. right; exact Hy.
Qed.

Lemma for_each_app_run {A} (body : A -> plt.Draw unit) (l1 l2 : list A) :
  forall (s s1 s2 : plt.pyplot) (ev1 ev2 : list plt.Event) (r : result unit),
    plt.for_each l1 body s = (s1, ev1, Ok tt) ->
    plt.for_each l2 body s1 = (s2, ev2, r) ->
    plt.for_each (l1 ++ l2) body s = (s2, ev1 ++ ev2, r).
Proof.
  induction l1 as [|x l1 IH]; intros s s1 s2 ev1 ev2 r H1 H2.
  - injection H1 as <- <-. exact H2.
  - cbn [plt.for_each app] in *. unfold plt.bind in *.
    destruct (body x s) as [[sx evx] [[]|e]]; [|discriminate].
    destruct (plt.for_each l1 body sx) as [[s' ev'] r'] eqn:Hrest.
    injection H1 as <- <- ->.
    rewrite (IH sx s' s2 ev' ev2 r Hrest H2), app_assoc. reflexivity.
Qed.

Lemma for_each_ext {A} (body body' : A -> plt.Draw unit) (l : list A) :
  (forall x s, In x l -> body x s = body' x s) ->
  forall s, plt.for_each l body s = plt.for_each l body' s.
Proof.
  induction l as [|x l IH]; intros Hext s; [reflexivity|].
  cbn [plt.for_each]. unfold plt.bind.
  rewrite (Hext x s (or_introl eq_refl)).
  destruct (body' x s) as [[s1 ev1] [a|e]]; [|reflexivity].
  rewrite IH; [reflexivity|]. intros y s' Hy. apply Hext. right; exact Hy.
Qed.

Lemma firstn_In_nth_error {A} (l : list A) (m : nat) (x : A) :
  In x (firstn m l) -> exists j, (j < m)%nat /\ nth_error l j = Some x.
Proof.
  revert l; induction m as [|m IH]; intros [|y l] H; simpl in H; try contradiction.
  destruct H as [->|H].
  - exists 0%nat. split; [lia | reflexivity].
  - destruct (IH l H) as (j & Hj & Hx). exists (S j). split; [lia | exact Hx].
Qed.

Lemma split_at {A} (l : list A) (m : nat) (x : A) :
  nth_error l m = Some x -> l = firstn m l ++ x :: skipn (S m) l.
Proof.
  revert l; induction m as [|m IH]; intros [|y l] H; simpl in *; try discriminate.
  - congruence.
  - f_equal. apply IH. exact H.
Qed.

Lemma bind_ext {A B} (m : plt.Draw A) (k k' : A -> plt.Draw B) (s : plt.pyplot) :
  (forall a s1, k a s1 = k' a s1) -> plt.bind m k s = plt.bind m k' s.
Proof.
  intros Hk. unfold plt.bind.
  destruct (m s) as [[s1 ev1] [a|e]]; [rewrite Hk|]; reflexivity.
Qed.

Lemma hlines_app (l1 l2 : list plt.Event) :
  hlines (l1 ++ l2) = hlines l1 ++ hlines l2.
Proof.
  induction l1 as [|e l1 IH]; [reflexivity|].
  destruct e; simpl; rewrite IH; reflexivity.
Qed.

Lemma titles_app (l1 l2 : list plt.Event) :
  titles (l1 ++ l2) = titles l1 ++ titles l2.
Proof.
  induction l1 as [|e l1 IH]; [reflexivity|].
  destruct e; simpl; rewrite IH; reflexivity.
Qed.

Lemma titles_of_plots (l : list plt.Event) :
  Forall (fun e => is_plot e = true) l -> titles l = [].
Proof.
  induction 1 as [|e l He Hl IH]; [reflexivity|].
  destruct e; simpl in *; try discriminate. exact IH.
Qed.

Lemma firstn_enumerate {A} (l : list A) (m : nat) :
  firstn m (py.enumerate l) = py.enumerate (firstn m l).
Proof.
  unfold py.enumerate. rewrite combine_firstn, length_firstn. f_equal.
  generalize 0%nat. revert m.
  induction l as [|x l IH]; intros [|m] k; simpl; try reflexivity.
  rewrite IH. reflexivity.
Qed.

(** ** Multi-class ROC plot: the probability table *)

Section MultiClassRocTable.

Context {M : Metrics} {F : Format}.

Variables (y_test : list Z) (preds : np.table).
Variables (ax : option plt.axes) (s : plt.pyplot).

(** X15. A probability table with fewer columns than there are classes stops
  the plot at the first class without a column: when the library
  answers for the classes that have one, the call raises IndexError,
  having made its Axes when none was supplied and drawn the baseline and
  the curves of those classes, in the order of the classes, and nothing
  else: no legend, title or axis label is set. *)
Theorem plot_multi_class_roc_short_table :
let class_labels := np.sort (pd.unique y_test) in
let m := np.width preds in
let h := roc_axes ax s in
let out := plot_multi_class_roc y_test preds ax s in
(m < List.length class_labels)%nat ->
(forall i c, (i < m)%nat -> nth_error class_labels i = Some c ->
   exists fpr tpr area, roc_of_class y_test preds i c fpr tpr area) ->
plt.outcome out = Raise IndexError /\
exists curves,
  plt.events out
  = match ax with
    | Some _ => []
    | None => [plt.Subplots 1 1 None [h]]
    end
    ++ plt.Plot h [0; 1]%float [0; 1]%float
         {| plt.color := Some "navy"; plt.lw := 2;
            plt.linestyle := Some "--"; plt.label := "baseline" |}
       :: curves /\
  class_curves y_test preds h (firstn m class_labels) curves.
Proof.
intros class_labels m h out Hshort Hlib.
destruct (nth_error class_labels m) as [cm|] eqn:Hcm;
  [|apply nth_error_None in Hcm; lia].
assert (Hm : nth_error (py.enumerate class_labels) m = Some (m, cm)).
{ rewrite enumerate_nth_error, Hcm. reflexivity. }
destruct (axes_or_new_run ax s) as (s1 & Hnew).
destruct (@roc_loop_run _ _ y_test preds h (firstn m (py.enumerate class_labels)) s1)
  as (curves & Hloop & Hall).
{ intros [i c] Hic. apply firstn_In_nth_error in Hic.
  destruct Hic as (j & Hj & Hic).
  rewrite enumerate_nth_error in Hic.
  destruct (nth_error class_labels j) as [c'|] eqn:Hc'; [|discriminate].
  injection Hic as <- <-. apply Hlib; assumption. }
assert (Hstop : plt.for_each ((m, cm) :: skipn (S m) (py.enumerate class_labels))
                  (plot_class_roc y_test preds h) s1
                = (s1, [], Raise IndexError)).
{ cbn [plt.for_each]. eapply bind_raise.
  unfold plot_class_roc, np.getitem_col. run.
  fold m. rewrite Nat.ltb_irrefl. reflexivity. }
pose proof (for_each_app_run _ _ _ _ Hloop Hstop) as Hall_classes.
rewrite <- (split_at _ _ Hm) in Hall_classes.
assert (Hout : out = (s1,
                      match ax with
                      | Some _ => []
                      | None => [plt.Subplots 1 1 None [plt.next_axes s]]
                      end
                      ++ [plt.Plot h diagonal diagonal baseline_kw]
                      ++ curves ++ [],
                      Raise IndexError)).
{ unfold out, plot_multi_class_roc.
  eapply bind_run; [exact Hnew|].
  eapply bind_run; [reflexivity|].
  eapply bind_raise. exact Hall_classes. }
rewrite Hout. cbn [plt.outcome plt.events fst snd].
split; [reflexivity|].
exists curves. split.
- rewrite app_nil_r. destruct ax; reflexivity.
- apply class_curves_enumerate. rewrite <- firstn_enumerate. exact Hall.
Qed.

End MultiClassRocTable.

(** ** Multi-class plots: what is read of the inputs *)

Section MultiClassInputs.

Context {M : Metrics} {F : Format}.

Variables (y_test : list Z).

Lemma enumerate_index {A} (l : list A) (i : nat) (x : A) :
In (i, x) (py.enumerate l) -> (i < List.length l)%nat.
Proof.
intros H. apply enumerate_In in H. apply nth_error_Some. congruence.
Qed.

(** X16. Only the first [K] columns of the probability table are read, [K]
  the number of classes: two tables that agree on those columns give
  the same plots, calls and results, whatever else they hold. *)
Theorem multi_class_plots_read_class_columns (preds preds' : np.table)
  (ax : option plt.axes) (s : plt.pyplot) :
(forall i, (i < List.length (np.sort (pd.unique y_test)))%nat ->
   np.getitem_col preds i = np.getitem_col preds' i) ->
plot_multi_class_roc y_test preds ax s = plot_multi_class_roc y_test preds' ax s /\
plot_multi_class_pr_curve y_test preds s = plot_multi_class_pr_curve y_test preds' s.
Proof.
intros Hcols. split.
- unfold plot_multi_class_roc.
  apply bind_ext; intros h s1.
  apply bind_ext; intros _ s2.
  unfold plt.bind.
  rewrite (for_each_ext (plot_class_roc y_test preds h)
                        (plot_class_roc y_test preds' h)); [reflexivity|].
  intros [i c] s3 Hic. unfold plot_class_roc.
  rewrite (Hcols i (enumerate_index _ _ _ Hic)). reflexivity.
- unfold plot_multi_class_pr_curve.
  apply bind_ext; intros grid s1.
  apply bind_ext; intros cells s2.
  apply bind_ext; intros _ s3.
  unfold plt.bind.
  rewrite (for_each_ext (plot_class_pr y_test preds cells)
                        (plot_class_pr y_test preds' cells)); [reflexivity|].
  intros [i c] s4 Hic. unfold plot_class_pr.
  rewrite (Hcols i (enumerate_index _ _ _ Hic)). reflexivity.
Qed.

End MultiClassInputs.

Section MultiClassEmpty.

Context {M : Metrics} {F : Format}.

(** X17. On an empty label vector there is no class.  [plot_multi_class_roc]
  then returns its Axes with the baseline as the only line, titled and
  labelled as usual; [plot_multi_class_pr_curve] asks for a grid of no
  rows and raises ValueError, leaving behind the new figure, of size 15
  by 0, with no Axes in it: that figure is now the current one, so
  pyplot has no current Axes any more. *)
Theorem multi_class_plots_on_no_labels (preds : np.table)
  (ax : option plt.axes) (s : plt.pyplot) :
let out := plot_multi_class_roc [] preds ax s in
let h := roc_axes ax s in
let failed := plot_multi_class_pr_curve [] preds s in
plt.outcome out = Ok h /\
filter is_plot (plt.events out)
= [plt.Plot h [0; 1]%float [0; 1]%float
     {| plt.color := Some "navy"; plt.lw := 2;
        plt.linestyle := Some "--"; plt.label := "baseline" |}] /\
titles (plt.events out) = [(h, "Multi-class ROC curve")] /\
plt.outcome failed = Raise ValueError /\
plt.events failed = [plt.Figure (Some (15, 0))] /\
plt.current (fst (fst failed)) = None /\
plt.next_axes (fst (fst failed)) = plt.next_axes s.
Proof.
destruct s as [n st xl yl]. destruct ax as [a|]; repeat split; reflexivity.
Qed.

End MultiClassEmpty.

(** ** Multi-class precision-recall grid: what is drawn where *)

Section MultiClassPrCells.

Context {M : Metrics} {F : Format}.

Variables (y_test : list Z) (preds : np.table) (s : plt.pyplot).

Local Abbreviation class_labels := (np.sort (pd.unique y_test)).
Local Abbreviation K := (List.length (np.sort (pd.unique y_test))).
Local Abbreviation rows := (np.ceil_div (List.length (np.sort (pd.unique y_test))) 3).
Local Abbreviation first := (plt.next_axes s).
Local Abbreviation cells :=
(seq (plt.next_axes s)
     (np.ceil_div (List.length (np.sort (pd.unique y_test))) 3 * 3)).
Local Abbreviation out := (plot_multi_class_pr_curve y_test preds s).

Lemma class_count_positive : y_test <> [] -> K <> 0%nat.
Proof.
intros Hne. destruct y_test as [|c0 y0] eqn:Hy; [congruence|].
assert (Hin : In c0 (np.sort (pd.unique (c0 :: y0))))
  by (apply class_labels_spec; left; reflexivity).
destruct (np.sort (pd.unique (c0 :: y0))); [contradiction | discriminate].
Qed.

(** The call as a grid, the deletions, and the plotting loop. *)
Lemma plot_multi_class_pr_curve_run :
y_test <> [] ->
exists s1 s2 evs r,
  plt.for_each (py.enumerate class_labels) (plot_class_pr y_test preds cells) s1
  = (s2, evs, r) /\
  out = (s2,
         [plt.Subplots rows 3 (Some (15, Z.of_nat rows * 5)) cells]
           ++ map plt.DelAxes (skipn K cells) ++ evs,
         match r with Ok _ => Ok cells | Raise e => Raise e end).
Proof.
intros Hne.
pose proof (class_count_positive Hne) as Hpos.
pose proof (@ceil_div_spec K 3) as HK.
assert (Hrows : rows <> 0%nat) by lia.
destruct (@subplots_run rows 3 (Some (15, Z.of_nat rows * 5)) s Hrows)
  as (s0 & Hgrid); [discriminate|].
pose proof (@flatten_three_columns rows first Hrows) as Hflat.
destruct (delete_unused_run first (rows * 3) K s0) as (s1 & Hdel).
destruct (plt.for_each (py.enumerate class_labels)
            (plot_class_pr y_test preds cells) s1) as [[s2 evs] r] eqn:Hloop.
exists s1, s2, evs, r. split; [exact Hloop|].
unfold plot_multi_class_pr_curve.
eapply bind_run; [exact Hgrid|].
change (map plt.DelAxes (skipn K cells) ++ evs)
  with ([] ++ map plt.DelAxes (skipn K cells) ++ evs).
eapply bind_run; [unfold plt.lift; rewrite Hflat; reflexivity|].
eapply bind_run; [exact Hdel|].
destruct r as [[]|e].
- rewrite <- (app_nil_r evs). eapply bind_run; [exact Hloop | reflexivity].
- eapply bind_raise. exact Hloop.
Qed.

(** What one turn of the plotting loop records acts on the cell of its
  class, and is no creation or deletion. *)
Lemma plot_class_pr_cell (axes : list plt.axes) (i : nat) (c : Z) (s0 : plt.pyplot) :
Forall (fun e => is_grid e = false /\
                 exists cell, nth_error axes i = Some cell /\ targets e = [cell])
       (plt.events (plot_class_pr y_test preds axes (i, c) s0)).
Proof.
unfold plot_class_pr, np.getitem. run.
destruct (nth_error axes i) as [cell|]; [|constructor].
destruct (py.truediv _ _) as [p|e]; [|constructor].
destruct (np.getitem_col preds i) as [column|e];
  [|repeat constructor; eauto].
destruct (precision_recall_curve _ column) as [[[precision recall] thresholds]|e];
  [|repeat constructor; eauto].
destruct (auc recall precision) as [area|e]; [|repeat constructor; eauto].
destruct (average_precision_score _ column 1) as [ap|e];
  repeat constructor; eauto.
Qed.

(** X18. No deleted cell is ever drawn on.  For a non-empty label vector, each
  recorded call other than the creation of the grid and the deletions
  acts on one of the first [K] cells, the cell of a class, while each
  deletion removes a cell after the [K]-th; this holds however far the
  call gets. *)
Theorem plot_multi_class_pr_curve_cells :
y_test <> [] ->
Forall (fun e =>
          match e with
          | plt.Subplots _ _ _ _ => True
          | plt.DelAxes a => (first + K <= a < first + rows * 3)%nat
          | _ => exists i, (i < K)%nat /\ targets e = [(first + i)%nat]
          end)
       (plt.events out).
Proof.
intros Hne.
destruct (plot_multi_class_pr_curve_run Hne) as (s1 & s2 & evs & r & Hloop & ->).
cbn [plt.events fst snd]. apply Forall_app. split; [repeat constructor|].
apply Forall_app. split.
- rewrite skipn_seq. apply Forall_forall. intros e He.
  apply in_map_iff in He. destruct He as (a & <- & Ha).
  apply in_seq in Ha. pose proof (@ceil_div_spec K 3). lia.
- pose proof (@for_each_forall _
      (fun e => is_grid e = false /\
                exists i, (i < K)%nat /\ targets e = [(first + i)%nat])
      (plot_class_pr y_test preds cells) (py.enumerate class_labels)) as Hbody.
  rewrite Forall_forall. intros e He.
  assert (He' : is_grid e = false /\
                exists i, (i < K)%nat /\ targets e = [(first + i)%nat]).
  { specialize (Hbody ltac:(
      intros [i c] s0 Hic;
      pose proof (enumerate_index _ _ _ Hic) as Hi;
      eapply Forall_impl; [|apply plot_class_pr_cell];
      intros e0 (Hg & cell & Hcell & Ht); split; [exact Hg|];
      exists i; split; [exact Hi|];
      rewrite nth_error_seq in Hcell;
      destruct (Nat.ltb i _); [injection Hcell as <-; exact Ht | discriminate]) s1).
    rewrite Hloop in Hbody. cbn [plt.events fst snd] in Hbody.
    rewrite Forall_forall in Hbody. apply Hbody. exact He. }
  destruct He' as (Hg & Hi). destruct e; try discriminate; exact Hi.
Qed.

End MultiClassPrCells.

Section MultiClassPrBaselines.

Context {M : Metrics} {F : Format}.

Variables (y_test : list Z) (preds : np.table).

(** One turn of the plotting loop in full, when the cell exists, there is
  a sample, and the library answers for the class. *)
Lemma plot_class_pr_run (first n i : nat) (c : Z) (s : plt.pyplot)
  (precision recall : list float) (area ap : float) :
(i < n)%nat ->
y_test <> [] ->
pr_of_class y_test preds i c precision recall area ap ->
let cell := (first + i)%nat in
plot_class_pr y_test preds (seq first n) (i, c) s
= (s,
   [plt.AxHLine cell (prevalence y_test c) baseline_kw;
    plt.Plot cell recall precision
      (class_kw ("AUC: " ++ format area ".2" ++ "; AP : " ++ format ap ".2"));
    plt.Legend cell None;
    plt.SetTitle cell ("Precision-recall curve: class " ++ str c);
    plt.SetXLabel cell "Recall";
    plt.SetYLabel cell "Precision";
    plt.SetXLim cell (-0.05)%float 1.05%float;
    plt.SetYLim cell (-0.05)%float 1.05%float],
   Ok tt).
Proof.
intros Hi Hne (column & thresholds & Hcol & Hcurve & Hauc & Hap) cell.
assert (Hlen : List.length y_test <> 0%nat)
  by (destruct y_test; [congruence | discriminate]).
assert (Hcell : @nth_error plt.axes (seq first n) i = Some cell).
{ rewrite nth_error_seq. destruct (Nat.ltb_spec i n); [reflexivity | lia]. }
unfold plot_class_pr, np.getitem. run.
rewrite Hcell, (truediv_nonempty _ Hlen), sum_count, Hcol. run.
rewrite Hcurve. run. rewrite Hauc, Hap. reflexivity.
Qed.

Lemma pr_loop_run (first n : nat) (l : list (nat * Z)) (s : plt.pyplot) :
y_test <> [] ->
(forall ic, In ic l ->
   (fst ic < n)%nat /\
   exists precision recall area ap,
     pr_of_class y_test preds (fst ic) (snd ic) precision recall area ap) ->
exists evs,
  plt.for_each l (plot_class_pr y_test preds (seq first n)) s = (s, evs, Ok tt) /\
  hlines evs
  = map (fun ic => ((first + fst ic)%nat, prevalence y_test (snd ic))) l /\
  titles evs
  = map (fun ic => ((first + fst ic)%nat,
                    ("Precision-recall curve: class " ++ str (snd ic))%string)) l.
Proof.
intros Hne. induction l as [|[i c] l IH]; intros Hlib.
- exists []. repeat split.
- destruct (Hlib (i, c) (or_introl eq_refl))
    as (Hi & precision & recall & area & ap & Hc).
  simpl in Hi, Hc.
  destruct IH as (evs & Hrun & Hh & Ht).
  { intros ic Hic. apply Hlib. right; assumption. }
  eexists. split; [|split].
  + eapply for_each_cons_run; [|exact Hrun].
    apply (plot_class_pr_run first s Hi Hne Hc).
  + rewrite hlines_app, Hh. reflexivity.
  + rewrite titles_app, Ht. reflexivity.
Qed.

Lemma hlines_deletions (l : list plt.axes) : hlines (map plt.DelAxes l) = [].
Proof. induction l; simpl; auto. Qed.

Lemma titles_deletions (l : list plt.axes) : titles (map plt.DelAxes l) = [].
Proof. induction l; simpl; auto. Qed.

(** X19. When the library answers for every class of a non-empty label
  vector, [plot_multi_class_pr_curve] gives each class its own cell, in
  ascending class order: on the [i]-th cell of the grid it draws one
  baseline, at the prevalence of the [i]-th class, and sets the title
  naming that class; nothing else is given a baseline or a title. *)
Theorem plot_multi_class_pr_curve_baselines (s : plt.pyplot) :
let class_labels := np.sort (pd.unique y_test) in
let first := plt.next_axes s in
let out := plot_multi_class_pr_curve y_test preds s in
y_test <> [] ->
(forall i c, nth_error class_labels i = Some c ->
   exists precision recall area ap,
     pr_of_class y_test preds i c precision recall area ap) ->
hlines (plt.events out)
= map (fun ic => ((first + fst ic)%nat, prevalence y_test (snd ic)))
      (py.enumerate class_labels) /\
titles (plt.events out)
= map (fun ic => ((first + fst ic)%nat,
                  ("Precision-recall curve: class " ++ str (snd ic))%string))
      (py.enumerate class_labels).
Proof.
intros class_labels first out Hne Hlib.
destruct (plot_multi_class_pr_curve_run preds s Hne)
  as (s1 & s2 & evs & r & Hloop & Hout).
destruct (@pr_loop_run first
            (np.ceil_div (List.length class_labels) 3 * 3)
            (py.enumerate class_labels) s1 Hne) as (evs' & Hrun & Hh & Ht).
{ intros [i c] Hic. simpl. split.
  - pose proof (enumerate_index _ _ _ Hic) as Hi.
    pose proof (@ceil_div_spec (List.length class_labels) 3).
    fold class_labels in Hi. lia.
  - apply Hlib. apply enumerate_In. exact Hic. }
fold class_labels first in Hloop. rewrite Hrun in Hloop.
injection Hloop as _ <- _.
unfold out. rewrite Hout. cbn [plt.events fst snd].
rewrite !hlines_app, !titles_app, hlines_deletions, titles_deletions.
split; [exact Hh | exact Ht].
Qed.

End MultiClassPrBaselines.

(** ** The further properties at work on the sample library *)

Lemma find_threshold_nan_bound_witness :
  find_threshold (M := Sample.metrics)
    [1; 0; 1; 0] [0.9; 0.2; 0.6; 0.4]%float nan 1%float = Ok [].
Proof.
  eapply (@find_threshold_nan_bound Sample.metrics);
    [reflexivity | reflexivity | reflexivity | left; reflexivity].
Defined.

Lemma find_threshold_nan_curve_witness :
  find_threshold (M := Sample.undefined_fpr)
    [1; 1; 1; 1] [0.9; 0.2; 0.6; 0.4]%float 1%float 0%float = Ok [].
Proof.
  eapply (@find_threshold_nan_curve Sample.undefined_fpr);
    [reflexivity | reflexivity | reflexivity |].
  left. intros i Hi.
  destruct i as [|[|i]]; [reflexivity | reflexivity | simpl in Hi; lia].
Defined.

Lemma find_threshold_vacuous_bounds_witness :
  find_threshold (M := Sample.metrics)
    [1; 0; 1; 0] [0.9; 0.2; 0.6; 0.4]%float infinity neg_infinity
  = Ok [infinity; 0.9; 0.6; 0.2]%float.
Proof.
  eapply (@find_threshold_vacuous_bounds Sample.metrics);
    [reflexivity | reflexivity | reflexivity |].
  intros i Hi.
  destruct i as [|[|[|[|i]]]]; try (split; reflexivity). simpl in Hi; lia.
Defined.


Lemma plot_roc_curve_failure_witness :
  let out := plot_roc (M := Sample.refusing) (F := Sample.text)
               [1; 0; 1; 0] [0.9; 0.2; 0.6; 0.4]%float None Sample.fresh in
  plt.outcome out = Raise ValueError /\
  plt.events out = [plt.Subplots 1 1 None [0%nat]].
Proof.
  exact (@plot_roc_curve_failure Sample.refusing Sample.text
           [1; 0; 1; 0] [0.9; 0.2; 0.6; 0.4]%float None Sample.fresh
           ValueError eq_refl).
Defined.

(** A keyword seaborn does not take: the Axes is made and the heat map
    requested, and nothing is labelled. *)
Lemma confusion_matrix_visual_raises_witness :
  let out := confusion_matrix_visual (M := Sample.metrics) (R := Sample.seaborn)
               [0; 1; 1; 0] [0; 1; 0; 0] ["neg"; "pos"] None None
               [("foo", "1")] Sample.fresh in
  plt.outcome out = Raise AttributeError /\
  filter is_labelling (plt.events out) = [] /\
  heatmaps (plt.events out)
  = [(0%nat, [[2; 1]; [0; 1]],
      {| plt.square := true; plt.annot := true; plt.fmt := "d";
         plt.cbar := true; plt.cmap := "Blues"; plt.extra := [("foo", "1")] |})].
Proof.
  destruct (@confusion_matrix_visual_raises Sample.metrics Sample.seaborn
              [0; 1; 1; 0] [0; 1; 0; 0] ["neg"; "pos"] None None [("foo", "1")]
              Sample.fresh AttributeError eq_refl) as (H1 & _ & H2).
  split; [reflexivity|]. split; [exact H1 | exact H2].
Defined.


Lemma confusion_matrix_visual_title_witness :
  titles (plt.events
    (confusion_matrix_visual (M := Sample.metrics) (R := Sample.seaborn)
       [0; 1; 1; 0] [0; 1; 0; 0] ["neg"; "pos"] None (Some "") [] Sample.fresh))
  = [(0%nat, "Confusion Matrix")].
Proof.
  destruct (@confusion_matrix_visual_title Sample.metrics Sample.seaborn
              [0; 1; 1; 0] [0; 1; 0; 0] ["neg"; "pos"] None (Some "") []
              Sample.fresh [[2; 0]; [1; 1]]
              {| annotated := all_cells [[2; 1]; [0; 1]]; new_colorbar := true |}
              eq_refl eq_refl eq_refl) as [H _].
  apply H. right; reflexivity.
Defined.

(** On a supplied Axes 7: the only Axes made is that of the colorbar, and
    every other call acts on Axes 7. *)
Lemma confusion_matrix_visual_confined_witness :
  let out := confusion_matrix_visual (M := Sample.metrics) (R := Sample.seaborn)
               [0; 1; 1; 0] [0; 1; 0; 0] ["neg"; "pos"] (Some 7%nat) None []
               Sample.fresh in
  plt.outcome out = Ok 7%nat /\
  filter is_grid (plt.events out) = [plt.Colorbar 0%nat 7%nat] /\
  Forall (fun e => targets e = [7%nat])
         (filter (fun e => negb (is_grid e)) (plt.events out)).
Proof.
  destruct (@confusion_matrix_visual_confined Sample.metrics Sample.seaborn
              [0; 1; 1; 0] [0; 1; 0; 0] ["neg"; "pos"] (Some 7%nat) None []
              Sample.fresh [[2; 0]; [1; 1]]
              {| annotated := all_cells [[2; 1]; [0; 1]]; new_colorbar := true |}
              eq_refl eq_refl eq_refl)
    as (H1 & _ & _ & _ & H5 & H6 & _).
  split; [exact H1|]. split; [exact H5 | exact H6].
Defined.

Lemma plot_pr_curve_finish_witness :
  let out := plot_pr_curve (M := Sample.metrics) (F := Sample.text)
               [1; 1; 0; 0] [0.9; 0.2; 0.6; 0.4]%float 1 Sample.fresh in
  plt.outcome out = Ok 0%nat /\
  filter is_grid (plt.events out) = [plt.Subplots 1 1 None [0%nat]] /\
  limits (plt.events out)
  = [plt.SetXLim 0%nat (-0.05)%float 1.05%float;
     plt.SetYLim 0%nat (-0.05)%float 1.05%float].
Proof.
  destruct (@plot_pr_curve_finish Sample.metrics Sample.text
              [1; 1; 0; 0] [0.9; 0.2; 0.6; 0.4]%float Sample.fresh 1
              [0.5; 1; 1]%float [1; 0.5; 0]%float [0.25; 0.75]%float
              1%float 1%float eq_refl ltac:(discriminate) eq_refl eq_refl)
    as (H1 & H2 & _ & H4 & _).
  split; [exact H1|]. split; [exact H2 | exact H4].
Defined.

(** The labels 2, 0, 1, 0, 5 and the labels 5, 2, 1, 0 name the same
    classes in the same order. *)
Lemma class_labels_canonical_witness :
  np.sort (pd.unique Sample.labels) = np.sort (pd.unique [5; 2; 1; 0]).
Proof.
  apply class_labels_canonical.
  intros c. unfold Sample.labels. simpl. intuition.
Defined.

(** Four classes and a table of two columns, on the library that shows
    what it is given: the Axes, the baseline and the curves of classes 0
    and 1 against columns 0 and 1; then the third class finds no
    column. *)
Example plot_multi_class_roc_narrow :
  plot_multi_class_roc (M := Sample.echo) (F := Sample.text)
    Sample.labels Sample.narrow None Sample.fresh
  = ({| plt.next_axes := 1; plt.stack := [0%nat];
        plt.xlocator := fun _ => None; plt.ylocator := fun _ => None |},
     [plt.Subplots 1 1 None [0%nat];
      plt.Plot 0%nat [0; 1]%float [0; 1]%float
        {| plt.color := Some "navy"; plt.lw := 2;
           plt.linestyle := Some "--"; plt.label := "baseline" |};
      plt.Plot 0%nat [0; 1; 0; 1; 0]%float [0.125; 0.5; 0.25; 0.75; 0.125]%float
        {| plt.color := None; plt.lw := 2; plt.linestyle := None;
           plt.label := "class 0; AUC: 1.0" |};
      plt.Plot 0%nat [0; 0; 1; 0; 0]%float [0.125; 0.25; 0.5; 0.125; 0.125]%float
        {| plt.color := None; plt.lw := 2; plt.linestyle := None;
           plt.label := "class 1; AUC: 1.0" |}],
     Raise IndexError).
Proof. reflexivity. Qed.

Lemma plot_multi_class_roc_short_table_witness :
  let out := plot_multi_class_roc (M := Sample.echo) (F := Sample.text)
               Sample.labels Sample.narrow None Sample.fresh in
  plt.outcome out = Raise IndexError /\
  exists curves,
    plt.events out
    = [plt.Subplots 1 1 None [0%nat]]
      ++ plt.Plot 0%nat [0; 1]%float [0; 1]%float
           {| plt.color := Some "navy"; plt.lw := 2;
              plt.linestyle := Some "--"; plt.label := "baseline" |}
         :: curves /\
    class_curves (M := Sample.echo) (F := Sample.text)
      Sample.labels Sample.narrow 0%nat [0; 1] curves.
Proof.
  apply (@plot_multi_class_roc_short_table Sample.echo Sample.text
           Sample.labels Sample.narrow None Sample.fresh).
  - vm_compute. lia.
  - intros i c Hi H.
    destruct i as [|[|i]]; cbv in H;
      try (exfalso; cbv in Hi; lia);
      injection H as <-;
      eexists _, _, _, _, _;
      (split; [split; [cbv; lia | repeat constructor]|]);
      split; reflexivity.
Defined.

Lemma multi_class_plots_read_class_columns_witness :
  plot_multi_class_roc (M := Sample.metrics) (F := Sample.text)
    Sample.labels Sample.table None Sample.fresh
  = plot_multi_class_roc (M := Sample.metrics) (F := Sample.text)
      Sample.labels Sample.wide None Sample.fresh /\
  plot_multi_class_pr_curve (M := Sample.metrics) (F := Sample.text)
    Sample.labels Sample.table Sample.fresh
  = plot_multi_class_pr_curve (M := Sample.metrics) (F := Sample.text)
      Sample.labels Sample.wide Sample.fresh.
Proof.
  apply (@multi_class_plots_read_class_columns Sample.metrics Sample.text).
  intros i Hi.
  destruct i as [|[|[|[|i]]]]; try reflexivity.
  exfalso. cbv in Hi. lia.
Defined.

Lemma plot_multi_class_pr_curve_cells_witness :
  Forall (fun e =>
            match e with
            | plt.Subplots _ _ _ _ => True
            | plt.DelAxes a => (4 <= a < 6)%nat
            | _ => exists i, (i < 4)%nat /\ targets e = [i]
            end)
         (plt.events
            (plot_multi_class_pr_curve (M := Sample.metrics) (F := Sample.text)
               Sample.labels Sample.table Sample.fresh)).
Proof.
  apply (@plot_multi_class_pr_curve_cells Sample.metrics Sample.text
           Sample.labels Sample.table Sample.fresh).
  discriminate.
Defined.

Lemma plot_multi_class_pr_curve_baselines_witness :
  hlines (plt.events
    (plot_multi_class_pr_curve (M := Sample.metrics) (F := Sample.text)
       Sample.labels Sample.table Sample.fresh))
  = [(0%nat, 0.4%float); (1%nat, 0.2%float); (2%nat, 0.2%float); (3%nat, 0.2%float)].
Proof.
  destruct (@plot_multi_class_pr_curve_baselines Sample.metrics Sample.text
              Sample.labels Sample.table Sample.fresh) as [H _].
  - discriminate.
  - intros i c Hc.
    destruct i as [|[|[|[|i]]]]; cbv in Hc;
      try (destruct i; discriminate);
      injection Hc as <-;
      eexists _, _, _, _, _, _; repeat split; reflexivity.
  - exact H.
Defined.

(** ** Multi-class precision-recall grid: the current Axes afterwards *)

Lemma for_each_state {A} (body : A -> plt.Draw unit) :
  (forall x s, fst (fst (body x s)) = s) ->
  forall l s, fst (fst (plt.for_each l body s)) = s.
Proof.
  intros Hbody l; induction l as [|x l IH]; intros s; [reflexivity|].
  cbn [plt.for_each]. unfold plt.bind.
  pose proof (Hbody x s) as Hx.
  destruct (body x s) as [[s1 ev1] [[]|e]]; simpl in Hx; subst s1; [|reflexivity].
  pose proof (IH s) as Hl.
  destruct (plt.for_each l body s) as [[s2 ev2] r]. exact Hl.
Qed.

Lemma remove_middle (x : nat) (l1 l2 : list nat) :
  ~ In x l1 -> ~ In x l2 ->
  remove Nat.eq_dec x (l1 ++ x :: l2) = l1 ++ l2.
Proof.
  intros H1 H2. rewrite remove_app, remove_cons.
  rewrite !notin_remove by assumption. reflexivity.
Qed.

Section MultiClassPrCurrent.

Context {M : Metrics} {F : Format}.

Variables (y_test : list Z) (preds : np.table) (s : plt.pyplot).

Local Abbreviation K := (List.length (np.sort (pd.unique y_test))).
Local Abbreviation rows := (np.ceil_div (List.length (np.sort (pd.unique y_test))) 3).
Local Abbreviation first := (plt.next_axes s).
Local Abbreviation out := (plot_multi_class_pr_curve y_test preds s).

(** One turn of the plotting loop leaves pyplot as it was, however far it
  gets. *)
Lemma plot_class_pr_state (axes : list plt.axes) (ic : nat * Z) (s0 : plt.pyplot) :
fst (fst (plot_class_pr y_test preds axes ic s0)) = s0.
Proof.
destruct ic as [i c]. unfold plot_class_pr. run.
destruct (np.getitem axes i) as [cell|e]; [|reflexivity].
destruct (py.truediv _ _) as [prevalence|e]; [|reflexivity].
destruct (np.getitem_col preds i) as [column|e]; [|reflexivity].
destruct (precision_recall_curve _ column) as [[[precision recall] thresholds]|e];
  [|reflexivity].
destruct (auc recall precision) as [area|e]; [|reflexivity].
destruct (average_precision_score _ column 1) as [ap|e]; reflexivity.
Qed.

(** The deleting loop takes the cells it is given out of the figure. *)
Lemma delete_loop_stack (first0 n k : nat) :
forall m a s0, (a + m = n)%nat -> (k <= a)%nat ->
  plt.stack s0 = seq first0 k ++ seq (first0 + a) m ->
  exists s1,
    plt.for_each (seq a m) (delete_cell (seq first0 n)) s0
    = (s1, map plt.DelAxes (seq (first0 + a) m), Ok tt) /\
    plt.stack s1 = seq first0 k /\
    plt.next_axes s1 = plt.next_axes s0.
Proof.
induction m as [|m IH]; intros a s0 Ha Hk Hstack.
- exists s0. rewrite app_nil_r in Hstack. repeat split. exact Hstack.
- destruct (IH (S a)
             {| plt.next_axes := plt.next_axes s0;
                plt.stack := remove Nat.eq_dec (first0 + a)%nat (plt.stack s0);
                plt.xlocator := plt.xlocator s0;
                plt.ylocator := plt.ylocator s0 |})
    as (s1 & Hrest & Hstack1 & Hnext1); [lia | lia | |].
  { cbn [plt.stack]. rewrite Hstack. cbn [seq].
    rewrite remove_middle, Nat.add_succ_r; [reflexivity| |];
      rewrite in_seq; lia. }
  exists s1. split; [|split; assumption].
  change (seq a (S m)) with (a :: seq (S a) m).
  change (map plt.DelAxes (seq (first0 + a) (S m)))
    with ([plt.DelAxes (first0 + a)%nat]
            ++ map plt.DelAxes (seq (S (first0 + a)%nat) m)).
  assert (Hcell : delete_cell (seq first0 n) a s0
                  = ({| plt.next_axes := plt.next_axes s0;
                        plt.stack := remove Nat.eq_dec (first0 + a)%nat (plt.stack s0);
                        plt.xlocator := plt.xlocator s0;
                        plt.ylocator := plt.ylocator s0 |},
                     [plt.DelAxes (first0 + a)%nat], Ok tt)).
  { unfold delete_cell, np.getitem. run.
    rewrite nth_error_seq. destruct (Nat.ltb_spec a n); [|lia]. reflexivity. }
  eapply for_each_cons_run; [exact Hcell|].
  rewrite Hrest, Nat.add_succ_r. reflexivity.
Qed.

(** X20. After [plot_multi_class_pr_curve] on a non-empty label vector,
  whether it returned or raised while plotting, the new figure holds
  exactly the first [K] cells of the grid, and the current Axes of
  pyplot is the last of them, the cell of the last class: deleting the
  unused cells, which were created last, moves the current Axes back
  onto a cell that is kept. *)
Theorem plot_multi_class_pr_curve_current :
y_test <> [] ->
let after := fst (fst out) in
plt.stack after = seq first K /\
plt.current after = Some (first + K - 1)%nat /\
plt.next_axes after = (first + rows * 3)%nat.
Proof.
intros Hne after.
assert (Hpos : K <> 0%nat).
{ destruct y_test as [|c0 y0] eqn:Hy; [congruence|].
  assert (Hin : In c0 (np.sort (pd.unique (c0 :: y0))))
    by (apply class_labels_spec; left; reflexivity).
  destruct (np.sort (pd.unique (c0 :: y0))); [contradiction | discriminate]. }
pose proof (@ceil_div_spec K 3) as HK.
assert (Hrows : rows <> 0%nat) by lia.
pose proof (@flatten_three_columns rows first Hrows) as Hflat.
assert (Hgrid : plt.subplots rows 3 (Some (15, Z.of_nat rows * 5)) s
                = ({| plt.next_axes := first + rows * 3;
                      plt.stack := seq first (rows * 3);
                      plt.xlocator := plt.xlocator s;
                      plt.ylocator := plt.ylocator s |},
                   [plt.Subplots rows 3 (Some (15, Z.of_nat rows * 5))
                      (seq first (rows * 3))],
                   Ok (plt.squeeze rows 3 first))).
{ unfold plt.subplots. destruct (Nat.eqb_spec rows 0); [contradiction|]. reflexivity. }
assert (Hdel : exists s1,
           (if Nat.ltb K (List.length (seq first (rows * 3)))
            then plt.for_each (py.range K (List.length (seq first (rows * 3))))
                              (delete_cell (seq first (rows * 3)))
            else plt.ret tt)
             {| plt.next_axes := first + rows * 3;
                plt.stack := seq first (rows * 3);
                plt.xlocator := plt.xlocator s;
                plt.ylocator := plt.ylocator s |}
           = (s1, map plt.DelAxes (seq (first + K) (rows * 3 - K)), Ok tt) /\
           plt.stack s1 = seq first K /\
           plt.next_axes s1 = (first + rows * 3)%nat).
{ rewrite length_seq. destruct (Nat.ltb_spec K (rows * 3)).
  - unfold py.range.
    destruct (@delete_loop_stack first (rows * 3) K (rows * 3 - K) K
                {| plt.next_axes := first + rows * 3;
                   plt.stack := seq first (rows * 3);
                   plt.xlocator := plt.xlocator s;
                   plt.ylocator := plt.ylocator s |})
      as (s1 & Hrun & Hstack & Hnext); [lia | lia | |].
    + cbn [plt.stack]. rewrite <- seq_app. f_equal. lia.
    + exists s1. repeat split; assumption.
  - replace (rows * 3 - K)%nat with 0%nat by lia.
    eexists. split; [reflexivity|]. cbn [plt.stack plt.next_axes].
    split; [f_equal; lia | reflexivity]. }
destruct Hdel as (s1 & Hdel & Hstack & Hnext).
pose proof (for_each_state (plot_class_pr y_test preds (seq first (rows * 3)))
              (plot_class_pr_state (seq first (rows * 3)))
              (py.enumerate (np.sort (pd.unique y_test))) s1) as Hloop.
destruct (plt.for_each (py.enumerate (np.sort (pd.unique y_test)))
            (plot_class_pr y_test preds (seq first (rows * 3))) s1)
  as [[s2 evs] r] eqn:Hrun.
simpl in Hloop. subst s2.
assert (Hout : exists evs' r', out = (s1, evs', r')).
{ destruct r as [[]|e]; eexists _, _; unfold plot_multi_class_pr_curve;
    (eapply bind_run; [exact Hgrid|]);
    (eapply bind_run; [unfold plt.lift; rewrite Hflat; reflexivity|]);
    (eapply bind_run; [exact Hdel|]);
    [eapply bind_run; [exact Hrun | reflexivity]
    |eapply bind_raise; exact Hrun]. }
destruct Hout as (evs' & r' & Hout).
assert (Hafter : after = s1) by (unfold after; rewrite Hout; reflexivity).
rewrite Hafter. split; [exact Hstack|]. split; [|exact Hnext].
unfold plt.current. rewrite Hstack.
destruct K as [|k]; [contradiction|].
rewrite seq_S, rev_app_distr. simpl. f_equal. lia.
Qed.

End MultiClassPrCurrent.

(** Four classes: cells 4 and 5 are deleted, and cell 3, the plot of
    class 5, is the current Axes. *)
Lemma plot_multi_class_pr_curve_current_witness :
  let after := fst (fst (plot_multi_class_pr_curve (M := Sample.metrics) (F := Sample.text)
                           Sample.labels Sample.table Sample.fresh)) in
  plt.stack after = [0; 1; 2; 3]%nat /\
  plt.current after = Some 3%nat /\
  plt.next_axes after = 6%nat.
Proof.
  apply (@plot_multi_class_pr_curve_current Sample.metrics Sample.text
           Sample.labels Sample.table Sample.fresh).
  discriminate.
Defined.
